(** * RAG over a MongoDB Atlas vector store: a shallow embedding of [main.py]

    The script is a thin sequence of calls into pymongo, llama_index,
    OpenAI and streamlit.  The calls into these libraries are modelled as
    oracles (record [Externals]); the control flow between them -- the
    [try]/[except] blocks, the guards, the temporary file, the rendering of
    the result -- is translated statement by statement into a small
    state-and-exception monad over a [World] that records the console, the
    user interface, the calls made and the temporary files on disk. *)

From Stdlib Require Import String Ascii NArith List Lia DecimalString.
From stdpp Require Import base option list gmap sets.

Local Open Scope list_scope.

(** ** Python strings

    A [str] is a sequence of Unicode code points. *)

Module PyStr.

Local Open Scope N_scope.

Definition char := N.
Definition str := list char.

(** A literal of the source, written as a Rocq string of ASCII characters. *)
Definition lit (s : string) : str := map N_of_ascii (list_ascii_of_string s).

Definition nl : str := [10].

(** [str(n)] for a non-negative integer. *)
Definition str_of_nat (n : nat) : str := lit (NilZero.string_of_uint (Nat.to_uint n)).

(** Truth value of a string: [if query] holds for the non-empty ones. *)
Definition truthy (s : str) : bool :=
  match s with [] => false | _ :: _ => true end.

(** The characters [str.strip()] removes: CPython's [Py_UNICODE_ISSPACE]. *)
Definition isspace (c : char) : bool :=
  ((9 <=? c) && (c <=? 13)) || ((28 <=? c) && (c <=? 32))
  || (c =? 133) || (c =? 160) || (c =? 5760)
  || ((8192 <=? c) && (c <=? 8202))
  || (c =? 8232) || (c =? 8233) || (c =? 8239) || (c =? 8287) || (c =? 12288).

Fixpoint lstrip (s : str) : str :=
  match s with
  | [] => []
  | c :: s' => if isspace c then lstrip s' else s
  end.

Definition rstrip (s : str) : str := reverse (lstrip (reverse s)).

Definition strip (s : str) : str := rstrip (lstrip s).

Fixpoint startswith (s prefix : str) {struct prefix} : bool :=
  match prefix, s with
  | [], _ => true
  | _ :: _, [] => false
  | p :: prefix', c :: s' => (p =? c) && startswith s' prefix'
  end.

(** [needle in hay] for two strings: the substring test. *)
Fixpoint str_in (needle hay : str) : bool :=
  startswith hay needle ||
  match hay with
  | [] => false
  | _ :: hay' => str_in needle hay'
  end.

End PyStr.

Import PyStr.

(** ** Exceptions and outcomes *)

(** The classes the script names or provokes; [OtherError] stands for any
    other subclass of [Exception] a library may raise, [NonError] for the
    subclasses of [BaseException] outside [Exception] ([KeyboardInterrupt],
    [SystemExit]), which [except Exception] does not catch. *)
Inductive exn_class :=
| ValueError
| AttributeError
| ConnectionFailure
| OtherError (name : string)
| NonError (name : string).

Record exn := Exn { exn_cls : exn_class; exn_msg : str }.

(** [isinstance(e, Exception)] *)
Definition is_Exception (e : exn) : bool :=
  match exn_cls e with NonError _ => false | _ => true end.

(** [isinstance(e, ConnectionFailure)] *)
Definition is_ConnectionFailure (e : exn) : bool :=
  match exn_cls e with ConnectionFailure => true | _ => false end.

Inductive outcome (A : Type) :=
| Ret (a : A)
| Raise (e : exn).
Arguments Ret {A} a.
Arguments Raise {A} e.

(** An outcome lets an instance of [Exception] through. *)
Definition escapes_Exception {A} (o : outcome A) : bool :=
  match o with Ret _ => false | Raise e => is_Exception e end.

(** ** Objects of the libraries

    An object is the record of the arguments it was constructed with. *)

Definition path := str.
Definition bytes := list Byte.byte.

Record MongoClient := { client_uri : str }.

Record OpenAIEmbedding := { model : str; embed_batch_size : nat }.

Record MongoDBAtlasVectorSearch := {
  mongo_client : MongoClient;
  vs_db_name : str;
  vs_collection_name : str;
  vector_index_name : str;
  exact : str
}.

Record StorageContext := { sc_vector_store : MongoDBAtlasVectorSearch }.

Record SettingsT := {
  embed_model_setting : OpenAIEmbedding;
  chunk_size : nat;
  chunk_overlap : nat
}.

Record Document := { doc_text : str }.

Record UploadedFile := { getvalue : bytes }.

Record VectorStoreIndex := {
  index_vector_store : MongoDBAtlasVectorSearch;
  index_embed_model : OpenAIEmbedding
}.

Record QueryEngine := {
  engine_index : VectorStoreIndex;
  similarity_top_k : nat;
  verbose : bool
}.

(** [node_with_score.node.get_content()] *)
Record NodeWithScore := { get_content : outcome str }.

Record Response := { response : str; source_nodes : list NodeWithScore }.

(** ** The world: what a run leaves behind *)

Inductive ui_event :=
| st_title (s : str)
| st_file_uploader (label : str)
| st_spinner (s : str)
| st_success (s : str)
| st_error (s : str)
| st_text_input (label : str)
| st_write (args : list str)
| st_markdown (s : str).

Inductive call :=
| call_MongoClient (uri : str)
| call_ismaster (c : MongoClient)
| call_GridFS
| call_OpenAIEmbedding (m : OpenAIEmbedding)
| call_MongoDBAtlasVectorSearch (v : MongoDBAtlasVectorSearch)
| call_StorageContext (v : MongoDBAtlasVectorSearch)
| call_NamedTemporaryFile
| call_write (p : path) (b : bytes)
| call_load_data (p : path)
| call_from_documents (s : SettingsT) (d : list Document) (c : StorageContext)
| call_persist (c : StorageContext)
| call_unlink (p : path)
| call_count_documents
| call_from_vector_store (v : MongoDBAtlasVectorSearch) (m : OpenAIEmbedding)
| call_as_query_engine (e : QueryEngine)
| call_query (e : QueryEngine) (q : str).

Inductive event :=
| Print (s : str)
| Ui (u : ui_event)
| Call (c : call).

Record World := {
  trace : list event;          (* oldest first *)
  tempfiles : gset path        (* the temporary files on disk *)
}.

Definition initial : World := {| trace := []; tempfiles := ∅ |}.

Definition is_ui (e : event) : bool :=
  match e with Ui _ => true | _ => false end.

Definition is_call (e : event) : bool :=
  match e with Call _ => true | _ => false end.

(** What the user sees, what the libraries were asked. *)
Definition rendered (w : World) : list event := filter (λ e, is_ui e = true) (trace w).
Definition calls (w : World) : list event := filter (λ e, is_call e = true) (trace w).

(** ** The monad *)

Definition M (A : Type) : Type := World → outcome A * World.

Definition ret {A} (a : A) : M A := λ w, (Ret a, w).

Definition raise {A} (e : exn) : M A := λ w, (Raise e, w).

Definition bind {A B} (m : M A) (k : A → M B) : M B :=
  λ w, match m w with
       | (Ret a, w') => k a w'
       | (Raise e, w') => (Raise e, w')
       end.

Notation "x <- m ;; k" := (bind m (λ x, k))
  (at level 100, m at next level, right associativity).
Notation "m ;; k" := (bind m (λ _, k))
  (at level 100, right associativity).

(** [try: body  except C as e: handler], where [C] is the class test. *)
Definition try_except {A} (body : M A) (C : exn → bool) (handler : exn → M A) : M A :=
  λ w, match body w with
       | (Raise e, w') => if C e then handler e w' else (Raise e, w')
       | r => r
       end.

Definition log (e : event) : M unit :=
  λ w, (Ret tt, {| trace := trace w ++ [e]; tempfiles := tempfiles w |}).

Definition print (s : str) : M unit := log (Print s).
Definition st (u : ui_event) : M unit := log (Ui u).

(** A call into a library: recorded, then answered by the oracle. *)
Definition ext {A} (c : call) (o : outcome A) : M A :=
  λ w, (o, {| trace := trace w ++ [Call c]; tempfiles := tempfiles w |}).

Definition fs_create (p : path) : M unit :=
  λ w, (Ret tt, {| trace := trace w; tempfiles := {[ p ]} ∪ tempfiles w |}).

Definition fs_remove (p : path) : M unit :=
  λ w, (Ret tt, {| trace := trace w; tempfiles := tempfiles w ∖ {[ p ]} |}).

(** ** The libraries, as oracles *)

Record Externals := {
  (* os.getenv("MONGODB_URI"), after load_dotenv() *)
  getenv_MONGODB_URI : option str;
  new_MongoClient : str → outcome unit;
  admin_command_ismaster : MongoClient → outcome unit;
  new_GridFS : outcome unit;
  new_OpenAIEmbedding : OpenAIEmbedding → outcome unit;
  new_MongoDBAtlasVectorSearch : MongoDBAtlasVectorSearch → outcome unit;
  StorageContext_from_defaults : MongoDBAtlasVectorSearch → outcome unit;
  (* what the user did on the page *)
  uploaded : option UploadedFile;
  typed : str;
  (* tempfile and os *)
  NamedTemporaryFile : outcome path;
  temp_file_write : path → bytes → outcome unit;
  os_unlink : path → outcome unit;
  (* llama_index and the collection *)
  load_data : path → outcome (list Document);
  from_documents : SettingsT → list Document → StorageContext → outcome unit;
  persist : StorageContext → outcome unit;
  count_documents : outcome nat;
  from_vector_store : MongoDBAtlasVectorSearch → OpenAIEmbedding → outcome unit;
  as_query_engine : QueryEngine → outcome unit;
  query_engine_query : QueryEngine → str → outcome Response
}.

(** ** The script *)

Section Script.

Variable X : Externals.

(** *** Start-up: the memoised initialisers and the module-level globals *)

Definition initialize_mongodb : M MongoClient :=
  match getenv_MONGODB_URI X with
  | None => raise (Exn ValueError (lit "MONGODB_URI not found in environment variables"))
  | Some mongo_uri =>
      if negb (truthy mongo_uri)
      then raise (Exn ValueError (lit "MONGODB_URI not found in environment variables"))
      else
        let client := {| client_uri := mongo_uri |} in
        ext (call_MongoClient mongo_uri) (new_MongoClient X mongo_uri) ;;
        try_except
          (ext (call_ismaster client) (admin_command_ismaster X client) ;;
           print (lit "[DEBUG] Successfully connected to MongoDB"))
          is_ConnectionFailure
          (λ e, print (lit "[ERROR] Failed to connect to MongoDB: " ++ exn_msg e) ;;
                raise e) ;;
        ret client
  end.

Definition db_name : str := lit "Lorenzo".
Definition collection_name : str := lit "RAG".

Definition initialize_embed_model : M OpenAIEmbedding :=
  try_except
    (let model := {| model := lit "text-embedding-3-small"; embed_batch_size := 100 |} in
     ext (call_OpenAIEmbedding model) (new_OpenAIEmbedding X model) ;;
     print (lit "[DEBUG] OpenAIEmbedding model initialized successfully") ;;
     ret model)
    is_Exception
    (λ e, print (lit "[ERROR] OpenAIEmbedding initialization failed: " ++ exn_msg e) ;;
          raise e).

Definition initialize_vector_store (client : MongoClient) : M MongoDBAtlasVectorSearch :=
  try_except
    (let vector_store :=
       {| mongo_client := client;
          vs_db_name := db_name;
          vs_collection_name := collection_name;
          vector_index_name := lit "vector_index";
          exact := lit "True" |} in
     ext (call_MongoDBAtlasVectorSearch vector_store)
         (new_MongoDBAtlasVectorSearch X vector_store) ;;
     print (lit "[DEBUG] MongoDBAtlasVectorSearch initialized successfully") ;;
     ret vector_store)
    is_Exception
    (λ e, print (lit "[ERROR] Vector store initialization failed: " ++ exn_msg e) ;;
          raise e).

Record Globals := {
  client : MongoClient;
  embed_model : OpenAIEmbedding;
  Settings : SettingsT;
  vector_store : MongoDBAtlasVectorSearch;
  storage_context : StorageContext
}.

(** Lines 14-79 of the script. *)
Definition startup : M Globals :=
  client <- initialize_mongodb ;;
  ext call_GridFS (new_GridFS X) ;;
  embed_model <- initialize_embed_model ;;
  let Settings :=
    {| embed_model_setting := embed_model; chunk_size := 100; chunk_overlap := 10 |} in
  vector_store <- initialize_vector_store client ;;
  ext (call_StorageContext vector_store) (StorageContext_from_defaults X vector_store) ;;
  ret {| client := client;
         embed_model := embed_model;
         Settings := Settings;
         vector_store := vector_store;
         storage_context := {| sc_vector_store := vector_store |} |}.

(** *** Ingestion *)

Variable G : Globals.

(** The body of the [try] of [process_pdf]. *)
Definition process_pdf_body (file : UploadedFile) : M nat :=
  (* with tempfile.NamedTemporaryFile(delete=False, suffix=".pdf") as temp_file: *)
  temp_file_path <- ext call_NamedTemporaryFile (NamedTemporaryFile X) ;;
  fs_create temp_file_path ;;
  ext (call_write temp_file_path (getvalue file))
      (temp_file_write X temp_file_path (getvalue file)) ;;
  print (lit "[DEBUG] Temporary file created at " ++ temp_file_path) ;;
  documents <- ext (call_load_data temp_file_path) (load_data X temp_file_path) ;;
  print (lit "[DEBUG] Documents loaded: " ++ str_of_nat (length documents)) ;;
  ext (call_from_documents (Settings G) documents (storage_context G))
      (from_documents X (Settings G) documents (storage_context G)) ;;
  ext (call_persist (storage_context G)) (persist X (storage_context G)) ;;
  print (lit "[DEBUG] VectorStoreIndex created and saved successfully") ;;
  ext (call_unlink temp_file_path) (os_unlink X temp_file_path) ;;
  fs_remove temp_file_path ;;
  print (lit "[DEBUG] Temporary file deleted") ;;
  ret (length documents).

Definition process_pdf (file : UploadedFile) : M nat :=
  try_except
    (process_pdf_body file)
    is_Exception
    (λ e, print (lit "[ERROR] PDF processing failed: " ++ exn_msg e) ;;
          raise e).

Definition check_vector_store : M unit :=
  try_except
    (count <- ext call_count_documents (count_documents X) ;;
     print (lit "[DEBUG] Number of documents in vector store: " ++ str_of_nat count))
    is_Exception
    (λ e, print (lit "[ERROR] Document count failed: " ++ exn_msg e)).

(** *** Retrieval *)

(** [None] when the load failed. *)
Definition load_index : M (option VectorStoreIndex) :=
  try_except
    (print (lit "[DEBUG] Loading VectorStoreIndex from vector store") ;;
     ext (call_from_vector_store (vector_store G) (embed_model G))
         (from_vector_store X (vector_store G) (embed_model G)) ;;
     ret (Some {| index_vector_store := vector_store G;
                  index_embed_model := embed_model G |}))
    is_Exception
    (λ e, print (lit "[ERROR] Index loading failed: " ++ exn_msg e) ;;
          ret None).

(** The loop over [top_nodes[:3]]; [top_blocks] is the list built so far. *)
Fixpoint collect_blocks (nodes : list NodeWithScore) (top_blocks : list str)
  : M (list str) :=
  match nodes with
  | [] => ret top_blocks
  | node_with_score :: nodes' =>
      content <- (λ w, (get_content node_with_score, w)) ;;
      collect_blocks nodes' (top_blocks ++ [content])
  end.

Definition sentinel : str * list str :=
  (lit "Error: Unable to process the query", []).

(** The body of the [try] of [search_and_answer_with_top_blocks]. *)
Definition search_body (query : str) (index : option VectorStoreIndex)
  : M (str * list str) :=
  print (lit "[DEBUG] Received query: " ++ query) ;;
  query_engine <-
    match index with
    | None =>
        raise (Exn AttributeError
                 (lit "'NoneType' object has no attribute 'as_query_engine'"))
    | Some index =>
        let query_engine :=
          {| engine_index := index; similarity_top_k := 3; verbose := true |} in
        ext (call_as_query_engine query_engine) (as_query_engine X query_engine) ;;
        ret query_engine
    end ;;
  resp <- ext (call_query query_engine query)
              (query_engine_query X query_engine query) ;;
  print (lit "[DEBUG] Response received: " ++ response resp) ;;
  let top_nodes := source_nodes resp in
  top_blocks <- collect_blocks (take 3 top_nodes) [] ;;
  ret (response resp, top_blocks).

Definition search_and_answer_with_top_blocks
    (query : str) (index : option VectorStoreIndex) : M (str * list str) :=
  try_except
    (search_body query index)
    is_Exception
    (λ e, print (lit "[ERROR] Query processing failed: " ++ exn_msg e) ;;
          ret sentinel).

(** *** The page *)

Definition upload_branch : M unit :=
  st (st_file_uploader (lit "Upload a PDF file")) ;;
  match uploaded X with
  | None => ret tt
  | Some uploaded_file =>
      st (st_spinner (lit "Processing PDF...")) ;;
      try_except
        (num_documents <- process_pdf uploaded_file ;;
         st (st_success
               (lit "PDF processed and saved successfully. Documents processed: "
                ++ str_of_nat num_documents)) ;;
         check_vector_store)
        is_Exception
        (λ e, st (st_error (lit "Error processing the PDF: " ++ exn_msg e)))
  end.

(** [st.markdown] of one source block, numbered from 1. *)
Definition block_markdown (i : nat) (block : str) : str :=
  lit "**Block " ++ str_of_nat i ++ lit ":**" ++ nl ++ lit "```" ++ nl
  ++ strip block ++ nl ++ lit "```".

Fixpoint show_blocks (i : nat) (top_blocks : list str) : M unit :=
  match top_blocks with
  | [] => ret tt
  | block :: top_blocks' =>
      st (st_markdown (block_markdown i block)) ;;
      show_blocks (S i) top_blocks'
  end.

(** Lines 172-182: what is done with the pair the retrieval returned. *)
Definition show_result (answer : str) (top_blocks : list str) : M unit :=
  if str_in (lit "Error") answer
  then st (st_error answer)
  else
    st (st_write [lit "**Answer:**"; answer]) ;;
    match top_blocks with
    | _ :: _ =>
        st (st_write [lit "**Top 3 Blocks Used (Sources):**"]) ;;
        show_blocks 1 top_blocks
    | [] => st (st_write [lit "No sources found."])
    end.

Definition query_branch (index : option VectorStoreIndex) : M unit :=
  st (st_text_input (lit "Ask a question about the uploaded documents:")) ;;
  let query := typed X in
  if truthy query && bool_decide (is_Some index)
  then
    st (st_spinner (lit "Searching...")) ;;
    r <- search_and_answer_with_top_blocks query index ;;
    show_result (fst r) (snd r)
  else ret tt.

(** Lines 152-182 of the script. *)
Definition page : M unit :=
  st (st_title (lit "RAG Application with Streamlit, MongoDB, and LlamaIndex")) ;;
  upload_branch ;;
  index <- load_index ;;
  query_branch index.

End Script.

(** One run of the whole script. *)
Definition main (X : Externals) : M unit :=
  G <- startup X ;;
  page X G.

(** ** Vocabulary of the statements *)

(** The engine [index.as_query_engine(similarity_top_k=3, verbose=True)]. *)
Definition engine_of (index : VectorStoreIndex) : QueryEngine :=
  {| engine_index := index; similarity_top_k := 3; verbose := true |}.

(** A step of the retrieval fails with [e]: there is no index object, the
    engine cannot be built, the query (embedding, search and generation
    happen inside that one call) raises, or the text of one of the first
    three source nodes cannot be read. *)
Inductive retrieval_fails (X : Externals) (query : str)
  : option VectorStoreIndex → exn → Prop :=
| fails_no_index :
    retrieval_fails X query None
      (Exn AttributeError (lit "'NoneType' object has no attribute 'as_query_engine'"))
| fails_engine index e :
    as_query_engine X (engine_of index) = Raise e →
    retrieval_fails X query (Some index) e
| fails_query index e :
    as_query_engine X (engine_of index) = Ret tt →
    query_engine_query X (engine_of index) query = Raise e →
    retrieval_fails X query (Some index) e
| fails_content index resp before node after e :
    as_query_engine X (engine_of index) = Ret tt →
    query_engine_query X (engine_of index) query = Ret resp →
    take 3 (source_nodes resp) = before ++ node :: after →
    Forall (λ n, ∃ s, get_content n = Ret s) before →
    get_content node = Raise e →
    retrieval_fails X query (Some index) e.

(** Every step of the retrieval succeeds, with response [resp] and the
    texts [blocks] of its first three source nodes. *)
Definition retrieval_succeeds (X : Externals) (query : str)
    (index : VectorStoreIndex) (resp : Response) (blocks : list str) : Prop :=
  as_query_engine X (engine_of index) = Ret tt ∧
  query_engine_query X (engine_of index) query = Ret resp ∧
  map get_content (take 3 (source_nodes resp)) = map Ret blocks.

(** The events [show_blocks] adds, numbering from [i]. *)
Fixpoint blocks_rendering (i : nat) (top_blocks : list str) : list event :=
  match top_blocks with
  | [] => []
  | block :: rest =>
      Ui (st_markdown (block_markdown i block)) :: blocks_rendering (S i) rest
  end.

(** The events [show_result] adds when the answer is shown as an answer. *)
Definition answer_rendering (answer : str) (top_blocks : list str) : list event :=
  Ui (st_write [lit "**Answer:**"; answer]) ::
  match top_blocks with
  | [] => [Ui (st_write [lit "No sources found."])]
  | _ :: _ =>
      Ui (st_write [lit "**Top 3 Blocks Used (Sources):**"])
      :: blocks_rendering 1 top_blocks
  end.

Definition is_error (e : event) : bool :=
  match e with Ui (st_error _) => true | _ => false end.

(** The vector store an event addresses was built with [exact="True"]. *)
Definition asks_exact (e : event) : Prop :=
  match e with
  | Call (call_MongoDBAtlasVectorSearch v) => exact v = lit "True"
  | Call (call_StorageContext v) => exact v = lit "True"
  | Call (call_from_documents _ _ c) => exact (sc_vector_store c) = lit "True"
  | Call (call_persist c) => exact (sc_vector_store c) = lit "True"
  | Call (call_from_vector_store v _) => exact v = lit "True"
  | Call (call_as_query_engine q) =>
      exact (index_vector_store (engine_index q)) = lit "True"
  | Call (call_query q _) =>
      exact (index_vector_store (engine_index q)) = lit "True"
  | _ => True
  end.

(** No instance of [Exception] gets out of [m], whatever the world. *)
Definition contained {A} (m : M A) : Prop :=
  ∀ w, escapes_Exception (fst (m w)) = false.

(** [m] adds only events that satisfy [P]. *)
Definition keeps {A} (P : event → Prop) (m : M A) : Prop :=
  ∀ w, Forall P (trace w) → Forall P (trace (snd (m w))).

(** Whatever [m] returns satisfies [Q]. *)
Definition returns {A} (Q : A → Prop) (m : M A) : Prop :=
  ∀ w a, fst (m w) = Ret a → Q a.

(** The globals hold a vector store built with [exact="True"]. *)
Definition exact_globals (G : Globals) : Prop :=
  exact (vector_store G) = lit "True" ∧
  exact (sc_vector_store (storage_context G)) = lit "True".

(** ** Concrete runs *)

Module Scenario.

Definition boom : exn := Exn (OtherError "OperationFailure") (lit "backend unavailable").

Definition tmp : path := lit "/tmp/tmpk3v9.pdf".

Definition pdf : UploadedFile := {| getvalue := [Byte.x25; Byte.x50; Byte.x44; Byte.x46] |}.

Definition question : str := lit "What is this document about?".

Definition node (s : string) : NodeWithScore := {| get_content := Ret (lit s) |}.

Definition four_nodes : list NodeWithScore :=
  [node " alpha "; node "beta"; node "gamma"; node "delta"].

(** A run in which everything works unless an argument says otherwise. *)
Definition run
    (uri : option str) (file : option UploadedFile) (q : str)
    (loaded : outcome (list Document)) (upserted : outcome unit)
    (counted : outcome nat)
    (index_loaded : outcome unit) (answered : outcome Response) : Externals :=
  {| getenv_MONGODB_URI := uri;
     new_MongoClient := λ _, Ret tt;
     admin_command_ismaster := λ _, Ret tt;
     new_GridFS := Ret tt;
     new_OpenAIEmbedding := λ _, Ret tt;
     new_MongoDBAtlasVectorSearch := λ _, Ret tt;
     StorageContext_from_defaults := λ _, Ret tt;
     uploaded := file;
     typed := q;
     NamedTemporaryFile := Ret tmp;
     temp_file_write := λ _ _, Ret tt;
     os_unlink := λ _, Ret tt;
     load_data := λ _, loaded;
     from_documents := λ _ _ _, upserted;
     persist := λ _, Ret tt;
     count_documents := counted;
     from_vector_store := λ _ _, index_loaded;
     as_query_engine := λ _, Ret tt;
     query_engine_query := λ _ _, answered |}.

Definition uri : option str := Some (lit "mongodb+srv://cluster0.example.net").

Definition one_page : outcome (list Document) := Ret [ {| doc_text := lit "Some text." |} ].

Definition good_answer : Response :=
  {| response := lit "It is about vector search."; source_nodes := four_nodes |}.

(** An answer that is fine and speaks about errors. *)
Definition error_talk : Response :=
  {| response := lit "The document lists HTTP Error codes."; source_nodes := four_nodes |}.

Definition all_fine : Externals :=
  run uri (Some pdf) question one_page (Ret tt) (Ret 7) (Ret tt) (Ret good_answer).

Definition no_uri : Externals :=
  run None (Some pdf) question one_page (Ret tt) (Ret 7) (Ret tt) (Ret good_answer).

Definition corrupt_pdf : Externals :=
  run uri (Some pdf) [] (Raise (Exn (OtherError "PdfReadError") (lit "EOF marker not found")))
      (Ret tt) (Ret 7) (Ret tt) (Ret good_answer).

Definition count_fails : Externals :=
  run uri (Some pdf) [] one_page (Ret tt) (Raise boom) (Ret tt) (Ret good_answer).

Definition upsert_fails : Externals :=
  run uri (Some pdf) [] one_page (Raise boom) (Ret 7) (Ret tt) (Ret good_answer).

Definition no_index : Externals :=
  run uri None question one_page (Ret tt) (Ret 0) (Raise boom) (Ret good_answer).

Definition query_fails : Externals :=
  run uri None question one_page (Ret tt) (Ret 7) (Ret tt) (Raise boom).

Definition answer_mentions_Error : Externals :=
  run uri None question one_page (Ret tt) (Ret 7) (Ret tt) (Ret error_talk).

(** The globals [startup] builds in these runs. *)
Definition globals : Globals :=
  let c := {| client_uri := lit "mongodb+srv://cluster0.example.net" |} in
  let m := {| model := lit "text-embedding-3-small"; embed_batch_size := 100 |} in
  let v := {| mongo_client := c; vs_db_name := db_name;
              vs_collection_name := collection_name;
              vector_index_name := lit "vector_index"; exact := lit "True" |} in
  {| client := c; embed_model := m;
     Settings := {| embed_model_setting := m; chunk_size := 100; chunk_overlap := 10 |};
     vector_store := v; storage_context := {| sc_vector_store := v |} |}.

Definition the_index : VectorStoreIndex :=
  {| index_vector_store := vector_store globals; index_embed_model := embed_model globals |}.

End Scenario.

(** ** Vocabulary for the whole script *)

(** [m] only appends events, and each of them satisfies [P]. *)
Definition appends {A} (P : event → Prop) (m : M A) : Prop :=
  ∀ w, ∃ t, trace (snd (m w)) = trace w ++ t ∧ Forall P t.

(** [m] leaves the temporary files as they are. *)
Definition keeps_files {A} (m : M A) : Prop :=
  ∀ w, tempfiles (snd (m w)) = tempfiles w.

Definition not_ui (e : event) : Prop := is_ui e = false.



(** Every step of the ingestion of [file] succeeds, staged at [p] and read
    as [docs]. *)
Definition ingestion_succeeds (X : Externals) (G : Globals) (file : UploadedFile)
    (p : path) (docs : list Document) : Prop :=
  NamedTemporaryFile X = Ret p ∧
  temp_file_write X p (getvalue file) = Ret tt ∧
  load_data X p = Ret docs ∧
  from_documents X (Settings G) docs (storage_context G) = Ret tt ∧
  persist X (storage_context G) = Ret tt ∧
  os_unlink X p = Ret tt.

(** The library calls of an ingestion that goes through, in their order. *)
Definition ingestion_calls (G : Globals) (file : UploadedFile)
    (p : path) (docs : list Document) : list event :=
  [Call call_NamedTemporaryFile;
   Call (call_write p (getvalue file));
   Call (call_load_data p);
   Call (call_from_documents (Settings G) docs (storage_context G));
   Call (call_persist (storage_context G));
   Call (call_unlink p)].

(** *** Memoised start-up

    [@st.cache_resource] (lines 17, 43 and 61): the value a decorated
    function returned is kept for the life of the process, and later runs of
    the script get it without the function being called; a call that raised
    keeps nothing.  [startup] is the run in which nothing is kept yet. *)
Record Memo := {
  memo_mongodb : option MongoClient;
  memo_embed_model : option OpenAIEmbedding;
  memo_vector_store : option MongoDBAtlasVectorSearch
}.

Definition cold : Memo :=
  {| memo_mongodb := None; memo_embed_model := None; memo_vector_store := None |}.

(** What a successful start-up keeps. *)
Definition memo_of (G : Globals) : Memo :=
  {| memo_mongodb := Some (client G);
     memo_embed_model := Some (embed_model G);
     memo_vector_store := Some (vector_store G) |}.

(** A call of a decorated function: outcome, world, and what is kept. *)
Definition cache_resource {A} (kept : option A) (f : M A)
  : World → outcome A * World * option A :=
  λ w, match kept with
       | Some a => (Ret a, w, Some a)
       | None =>
           match f w with
           | (Ret a, w') => (Ret a, w', Some a)
           | (Raise e, w') => (Raise e, w', None)
           end
       end.

(** Lines 14-79 of the script in a process that keeps [c]. *)
Definition startup_memo (X : Externals) (c : Memo)
  : World → outcome Globals * World * Memo :=
  λ w,
  let '(o1, w1, k1) := cache_resource (memo_mongodb c) (initialize_mongodb X) w in
  match o1 with
  | Raise e =>
      (Raise e, w1,
       {| memo_mongodb := k1; memo_embed_model := memo_embed_model c;
          memo_vector_store := memo_vector_store c |})
  | Ret client =>
      match ext call_GridFS (new_GridFS X) w1 with
      | (Raise e, w2) =>
          (Raise e, w2,
           {| memo_mongodb := k1; memo_embed_model := memo_embed_model c;
              memo_vector_store := memo_vector_store c |})
      | (Ret _, w2) =>
          let '(o3, w3, k3) :=
            cache_resource (memo_embed_model c) (initialize_embed_model X) w2 in
          match o3 with
          | Raise e =>
              (Raise e, w3,
               {| memo_mongodb := k1; memo_embed_model := k3;
                  memo_vector_store := memo_vector_store c |})
          | Ret embed_model =>
              let Settings :=
                {| embed_model_setting := embed_model;
                   chunk_size := 100; chunk_overlap := 10 |} in
              let '(o4, w4, k4) :=
                cache_resource (memo_vector_store c)
                  (initialize_vector_store X client) w3 in
              let kept :=
                {| memo_mongodb := k1; memo_embed_model := k3;
                   memo_vector_store := k4 |} in
              match o4 with
              | Raise e => (Raise e, w4, kept)
              | Ret vector_store =>
                  match ext (call_StorageContext vector_store)
                            (StorageContext_from_defaults X vector_store) w4 with
                  | (Raise e, w5) => (Raise e, w5, kept)
                  | (Ret _, w5) =>
                      (Ret {| client := client;
                              embed_model := embed_model;
                              Settings := Settings;
                              vector_store := vector_store;
                              storage_context :=
                                {| sc_vector_store := vector_store |} |},
                       w5, kept)
                  end
              end
          end
      end
  end.


Module StartupScenario.

(** A start-up in which the probe and the two constructors answer as given. *)
Definition run (probe embed store : outcome unit) : Externals :=
  {| getenv_MONGODB_URI := Scenario.uri;
     new_MongoClient := λ _, Ret tt;
     admin_command_ismaster := λ _, probe;
     new_GridFS := Ret tt;
     new_OpenAIEmbedding := λ _, embed;
     new_MongoDBAtlasVectorSearch := λ _, store;
     StorageContext_from_defaults := λ _, Ret tt;
     uploaded := None;
     typed := [];
     NamedTemporaryFile := Ret Scenario.tmp;
     temp_file_write := λ _ _, Ret tt;
     os_unlink := λ _, Ret tt;
     load_data := λ _, Scenario.one_page;
     from_documents := λ _ _ _, Ret tt;
     persist := λ _, Ret tt;
     count_documents := Ret 0;
     from_vector_store := λ _ _, Ret tt;
     as_query_engine := λ _, Ret tt;
     query_engine_query := λ _ _, Ret Scenario.good_answer |}.

Definition the_uri : str := lit "mongodb+srv://cluster0.example.net".

Definition timeout : exn :=
  Exn ConnectionFailure (lit "No servers found yet").

Definition no_key : exn :=
  Exn ValueError (lit "No API key found for OpenAI").

Definition interrupt : exn := Exn (NonError "KeyboardInterrupt") [].

Definition unreachable : Externals := run (Raise timeout) (Ret tt) (Ret tt).

Definition no_api_key : Externals := run (Ret tt) (Raise no_key) (Ret tt).

Definition idle : Externals := run (Ret tt) (Ret tt) (Ret tt).

Definition interrupted_query : Externals :=
  Scenario.run Scenario.uri None Scenario.question Scenario.one_page
    (Ret tt) (Ret 7) (Ret tt) (Raise interrupt).

End StartupScenario.

(** * Properties *)

(** ** Strings *)

Example strip_example :
  strip (lit "  a b " ++ nl) = lit "a b".
Proof. reflexivity. Qed.

Example str_in_example :
  str_in (lit "Error") (lit "HTTP Error 404") = true ∧
  str_in (lit "Error") (lit "error") = false.
Proof. split; reflexivity. Qed.

Example str_of_nat_example : str_of_nat 0 = lit "0" ∧ str_of_nat 42 = lit "42".
Proof. split; reflexivity. Qed.

Lemma startswith_spec (prefix s : str) :
  startswith s prefix = true ↔ ∃ r, s = prefix ++ r.
Proof.
  revert s; induction prefix as [|p prefix IH]; intros s; simpl.
  - split; [intros _; by exists s | done].
  - destruct s as [|c s]; simpl.
    + split; [done | intros [r Hr]; discriminate].
    + rewrite andb_true_iff, N.eqb_eq, IH. split.
      * intros [-> [r ->]]. by exists r.
      * intros [r Hr]. injection Hr as -> ->. split; [done | by exists r].
Qed.

(** [needle in hay] holds exactly when [needle] occurs in [hay]. *)
Lemma str_in_spec (needle hay : str) :
  str_in needle hay = true ↔ ∃ l r, hay = l ++ needle ++ r.
Proof.
  induction hay as [|c hay IH]; simpl.
  - rewrite orb_false_r, startswith_spec. split.
    + intros [r Hr]. by exists [], r.
    + intros (l & r & H). destruct l; [by exists r | discriminate].
  - rewrite orb_true_iff, startswith_spec, IH. split.
    + intros [[r Hr] | (l & r & ->)]; [by exists [], r | by exists (c :: l), r].
    + intros (l & r & H). destruct l as [|c' l]; simpl in H.
      * left. by exists r.
      * right. injection H as -> ->. by exists l, r.
Qed.

Lemma lstrip_spec (s : str) :
  ∃ l, s = l ++ lstrip s ∧ forallb isspace l = true.
Proof.
  induction s as [|c s (l & Hl & Hsp)]; simpl.
  - by exists [].
  - destruct (isspace c) eqn:Hc.
    + exists (c :: l). simpl. rewrite Hc, Hsp. split; [by f_equal | done].
    + by exists [].
Qed.

Lemma lstrip_head (s : str) (c : char) :
  head (lstrip s) = Some c → isspace c = false.
Proof.
  induction s as [|d s IH]; simpl; [done|].
  destruct (isspace d) eqn:Hd; [done|]. simpl. by intros [= <-].
Qed.

Lemma forallb_reverse {A} (f : A → bool) (l : list A) :
  forallb f (reverse l) = forallb f l.
Proof.
  induction l as [|x l IH]; [done|].
  rewrite reverse_cons, forallb_app, IH. simpl. rewrite andb_true_r. apply andb_comm.
Qed.

Lemma rstrip_spec (s : str) :
  ∃ r, s = rstrip s ++ r ∧ forallb isspace r = true.
Proof.
  destruct (lstrip_spec (reverse s)) as (l & Hl & Hsp).
  exists (reverse l). split.
  - unfold rstrip. rewrite <- reverse_app, <- Hl. by rewrite reverse_involutive.
  - by rewrite forallb_reverse.
Qed.

Lemma rstrip_last (s : str) (c : char) :
  last (rstrip s) = Some c → isspace c = false.
Proof. unfold rstrip. rewrite last_reverse. apply lstrip_head. Qed.

(** [strip] cuts white space, and only white space, off both ends. *)
Lemma strip_spec (s : str) :
  (∃ l r, s = l ++ strip s ++ r ∧
          forallb isspace l = true ∧ forallb isspace r = true) ∧
  (∀ c, head (strip s) = Some c → isspace c = false) ∧
  (∀ c, last (strip s) = Some c → isspace c = false).
Proof.
  destruct (lstrip_spec s) as (l & Hl & Hsl).
  destruct (rstrip_spec (lstrip s)) as (r & Hr & Hsr).
  fold (strip s) in Hr. split; [|split].
  - exists l, r. by rewrite <- Hr.
  - intros c Hc. apply (lstrip_head s). rewrite Hr.
    destruct (strip s); [done | exact Hc].
  - apply rstrip_last.
Qed.

(** ** The monad: containment of exceptions *)

Section Containment.

Context {A B : Type}.

Lemma contained_ret (a : A) : contained (ret a).
Proof. by intros w. Qed.

Lemma contained_log (e : event) : contained (log e).
Proof. by intros w. Qed.

Lemma contained_bind (m : M A) (k : A → M B) :
  contained m → (∀ a, contained (k a)) → contained (bind m k).
Proof.
  intros Hm Hk w. unfold bind. specialize (Hm w).
  destruct (m w) as [[a|e] w']; simpl in *; [apply Hk | done].
Qed.

(** An [except Exception] whose handler returns stops every [Exception]. *)
Lemma contained_try (body : M A) (handler : exn → M A) :
  (∀ e, contained (handler e)) → contained (try_except body is_Exception handler).
Proof.
  intros Hh w. unfold try_except.
  destruct (body w) as [[a|e] w']; simpl; [done|].
  destruct (is_Exception e) eqn:He; [apply Hh | simpl; by rewrite He].
Qed.

End Containment.

Lemma contained_print (s : str) : contained (print s).
Proof. apply contained_log. Qed.

Lemma contained_st (u : ui_event) : contained (st u).
Proof. apply contained_log. Qed.

Lemma contained_search (X : Externals) (query : str) (index : option VectorStoreIndex) :
  contained (search_and_answer_with_top_blocks X query index).
Proof.
  apply contained_try. intros e.
  apply contained_bind; [apply contained_print | intros _; apply contained_ret].
Qed.

Lemma contained_check_vector_store (X : Externals) : contained (check_vector_store X).
Proof. apply contained_try. intros e. apply contained_print. Qed.

Lemma contained_load_index (X : Externals) (G : Globals) : contained (load_index X G).
Proof.
  apply contained_try. intros e.
  apply contained_bind; [apply contained_print | intros _; apply contained_ret].
Qed.

Lemma contained_upload_branch (X : Externals) (G : Globals) :
  contained (upload_branch X G).
Proof.
  unfold upload_branch. apply contained_bind; [apply contained_st | intros _].
  destruct (uploaded X); [|apply contained_ret].
  apply contained_bind; [apply contained_st | intros _].
  apply contained_try. intros e. apply contained_st.
Qed.

(** ** Retrieval *)

Lemma collect_blocks_ok (nodes : list NodeWithScore) (blocks acc : list str) (w : World) :
  map get_content nodes = map Ret blocks →
  collect_blocks nodes acc w = (Ret (acc ++ blocks), w).
Proof.
  revert blocks acc; induction nodes as [|n nodes IH]; intros [|b blocks] acc H;
    simpl in *; try discriminate.
  - unfold ret. by rewrite app_nil_r.
  - injection H as Hn H. unfold bind. rewrite Hn.
    rewrite (IH blocks _ H). by rewrite <- app_assoc.
Qed.

Lemma collect_blocks_raise (before after : list NodeWithScore) (node : NodeWithScore)
    (e : exn) (acc : list str) (w : World) :
  Forall (λ n, ∃ s, get_content n = Ret s) before →
  get_content node = Raise e →
  collect_blocks (before ++ node :: after) acc w = (Raise e, w).
Proof.
  intros Hb Hn. revert acc. induction Hb as [|n before [s Hs] _ IH]; intros acc; simpl.
  - unfold bind. by rewrite Hn.
  - unfold bind. rewrite Hs. apply IH.
Qed.

Lemma collect_blocks_world (nodes : list NodeWithScore) (acc : list str) (w : World) :
  snd (collect_blocks nodes acc w) = w.
Proof.
  revert acc; induction nodes as [|n nodes IH]; intros acc; simpl; [done|].
  unfold bind. destruct (get_content n); [apply IH | done].
Qed.

(** A failing step makes the body of the [try] raise. *)
Lemma search_body_raises (X : Externals) (query : str) (index : option VectorStoreIndex)
    (e : exn) (w : World) :
  retrieval_fails X query index e →
  ∃ w', search_body X query index w = (Raise e, w').
Proof.
  intros H. destruct H as [|index e H|index e H1 H2|index resp before node after e H1 H2 H3 H4 H5];
    unfold engine_of in *; unfold search_body, bind, print, log, ext, raise, ret; simpl.
  - eauto.
  - rewrite H. eauto.
  - rewrite H1, H2. eauto.
  - rewrite H1, H2, H3. rewrite (collect_blocks_raise _ _ _ e); eauto.
Qed.

(** C1.  When a step of the retrieval fails -- no index object, the query
    engine cannot be built, the query itself (embedding, top-K search,
    generation) raises, or a source node cannot be read --
    [search_and_answer_with_top_blocks] returns the pair
    ("Error: Unable to process the query", []); and in no world does an
    instance of [Exception] get past it. *)
Theorem search_failure_yields_sentinel
    (X : Externals) (query : str) (index : option VectorStoreIndex) (w : World) :
  (∀ e, retrieval_fails X query index e → is_Exception e = true →
        fst (search_and_answer_with_top_blocks X query index w)
        = Ret (lit "Error: Unable to process the query", [])) ∧
  escapes_Exception (fst (search_and_answer_with_top_blocks X query index w)) = false.
Proof.
  split; [|apply contained_search].
  intros e Hfail He.
  destruct (search_body_raises X query index e w Hfail) as [w' Hw'].
  unfold search_and_answer_with_top_blocks, try_except. rewrite Hw', He.
  reflexivity.
Qed.

Lemma search_failure_yields_sentinel_witness :
  fst (search_and_answer_with_top_blocks Scenario.query_fails Scenario.question
         (Some Scenario.the_index) initial)
  = Ret (lit "Error: Unable to process the query", []).
Proof.
  apply (proj1 (search_failure_yields_sentinel Scenario.query_fails Scenario.question
                  (Some Scenario.the_index) initial) Scenario.boom).
  - apply fails_query; reflexivity.
  - reflexivity.
Defined.

(** ** Start-up *)

(** C4.  Without a connection string in the environment the script stops
    at its first statement with [ValueError("MONGODB_URI not found in
    environment variables")]: the world is left as it was, so nothing has
    been rendered, no client has been created and no library has been
    called.  An empty connection string does the same. *)
Theorem missing_uri_stops_startup (X : Externals) (w : World) :
  getenv_MONGODB_URI X = None ∨ getenv_MONGODB_URI X = Some [] →
  main X w
  = (Raise (Exn ValueError (lit "MONGODB_URI not found in environment variables")), w).
Proof.
  intros H. unfold main, startup, initialize_mongodb, bind, raise.
  destruct H as [-> | ->]; reflexivity.
Qed.

Lemma missing_uri_stops_startup_witness :
  main Scenario.no_uri initial
  = (Raise (Exn ValueError (lit "MONGODB_URI not found in environment variables")), initial).
Proof.
  apply (missing_uri_stops_startup Scenario.no_uri initial). left. reflexivity.
Defined.

(** ** Ingestion *)

Ltac unfold_monad :=
  unfold bind, try_except, ext, print, st, log, fs_create, fs_remove, ret, raise in *.

Ltac case_oracle :=
  match goal with
  | |- context [match ?o with Ret _ => _ | Raise _ => _ end] =>
      let E := fresh "E" in destruct o eqn:E; simpl in *
  | |- context [if is_Exception ?e then _ else _] =>
      let E := fresh "E" in destruct (is_Exception e) eqn:E; simpl in *
  end.

(** When [process_pdf] returns, the staged file is gone. *)
Lemma process_pdf_success_deletes (X : Externals) (G : Globals) (file : UploadedFile)
    (w : World) (p : path) (n : nat) :
  NamedTemporaryFile X = Ret p →
  fst (process_pdf X G file w) = Ret n →
  p ∉ tempfiles (snd (process_pdf X G file w)).
Proof.
  intros Hp. unfold process_pdf, process_pdf_body. unfold_monad. simpl. rewrite Hp.
  repeat case_oracle; intros Hr; try discriminate.
  rewrite elem_of_difference, elem_of_singleton. tauto.
Qed.

(** When [process_pdf] raises after the file was staged, the file stays. *)
Lemma process_pdf_failure_leaks (X : Externals) (G : Globals) (file : UploadedFile)
    (w : World) (p : path) (e : exn) :
  NamedTemporaryFile X = Ret p →
  fst (process_pdf X G file w) = Raise e →
  p ∈ tempfiles (snd (process_pdf X G file w)).
Proof.
  intros Hp. unfold process_pdf, process_pdf_body. unfold_monad. simpl. rewrite Hp.
  repeat case_oracle; intros Hr; try discriminate;
    apply elem_of_union_l, elem_of_singleton; reflexivity.
Qed.

(** C2.  The upload of a PDF the reader rejects: [process_pdf] logs the
    error and re-raises it, and the staged temporary file is still on disk
    afterwards -- [os.unlink] is reached on the successful path only. *)
Theorem process_pdf_leaves_temp_file_on_failure :
  fst (process_pdf Scenario.corrupt_pdf Scenario.globals Scenario.pdf initial)
  = Raise (Exn (OtherError "PdfReadError") (lit "EOF marker not found")) ∧
  Scenario.tmp ∈
    tempfiles (snd (process_pdf Scenario.corrupt_pdf Scenario.globals Scenario.pdf initial)) ∧
  Call (call_unlink Scenario.tmp) ∉
    trace (snd (process_pdf Scenario.corrupt_pdf Scenario.globals Scenario.pdf initial)).
Proof.
  split; [reflexivity|]. split.
  - apply (process_pdf_failure_leaks _ _ _ _ _
             (Exn (OtherError "PdfReadError") (lit "EOF marker not found")));
      reflexivity.
  - cbn. rewrite !elem_of_cons, elem_of_nil. intros H.
    repeat (destruct H as [H|H]; [discriminate|]). exact H.
Qed.

(** A backend error while the records are written makes [process_pdf]
    raise that very error. *)
Lemma process_pdf_reraises_store_error (X : Externals) (G : Globals) (file : UploadedFile)
    (w : World) (p : path) (docs : list Document) (e : exn) :
  NamedTemporaryFile X = Ret p →
  temp_file_write X p (getvalue file) = Ret tt →
  load_data X p = Ret docs →
  from_documents X (Settings G) docs (storage_context G) = Raise e ∨
  (from_documents X (Settings G) docs (storage_context G) = Ret tt ∧
   persist X (storage_context G) = Raise e) →
  fst (process_pdf X G file w) = Raise e.
Proof.
  intros Hp Hw Hl Hs. unfold process_pdf, process_pdf_body. unfold_monad. simpl.
  rewrite Hp, Hw, Hl. simpl. destruct Hs as [-> | [-> ->]]; simpl;
    by destruct (is_Exception e).
Qed.

Lemma check_vector_store_swallows (X : Externals) (w : World) (e : exn) :
  count_documents X = Raise e →
  is_Exception e = true →
  check_vector_store X w
  = (Ret tt,
     {| trace := trace w ++ [Call call_count_documents;
                             Print (lit "[ERROR] Document count failed: " ++ exn_msg e)];
        tempfiles := tempfiles w |}).
Proof.
  intros Hc He. unfold check_vector_store. unfold_monad. simpl. rewrite Hc, He.
  simpl. by rewrite <- app_assoc.
Qed.

(** C7, counterexample.  The count after a successful upload fails at the
    backend: [check_vector_store] returns as if nothing had happened, and
    the page shows the success message and no error. *)
Lemma count_error_is_discarded :
  count_documents Scenario.count_fails = Raise Scenario.boom ∧
  fst (check_vector_store Scenario.count_fails initial) = Ret tt ∧
  rendered (snd (check_vector_store Scenario.count_fails initial)) = [] ∧
  filter (λ e, is_error e = true)
         (trace (snd (page Scenario.count_fails Scenario.globals initial))) = [].
Proof. repeat split; reflexivity. Qed.

Lemma process_pdf_logs_store_error (X : Externals) (G : Globals) (file : UploadedFile)
    (w : World) (p : path) (docs : list Document) (e : exn) :
  NamedTemporaryFile X = Ret p →
  temp_file_write X p (getvalue file) = Ret tt →
  load_data X p = Ret docs →
  from_documents X (Settings G) docs (storage_context G) = Raise e ∨
  (from_documents X (Settings G) docs (storage_context G) = Ret tt ∧
   persist X (storage_context G) = Raise e) →
  is_Exception e = true →
  last (trace (snd (process_pdf X G file w)))
  = Some (Print (lit "[ERROR] PDF processing failed: " ++ exn_msg e)).
Proof.
  intros Hp Hw Hl Hs He. unfold process_pdf, process_pdf_body. unfold_monad. simpl.
  rewrite Hp, Hw, Hl. simpl. destruct Hs as [-> | [-> ->]]; simpl;
    rewrite He; simpl; apply last_snoc.
Qed.

Lemma search_logs_query_error (X : Externals) (query : str) (i : VectorStoreIndex)
    (e : exn) (w : World) :
  as_query_engine X (engine_of i) = Ret tt →
  query_engine_query X (engine_of i) query = Raise e →
  is_Exception e = true →
  search_and_answer_with_top_blocks X query (Some i) w
  = (Ret (lit "Error: Unable to process the query", []),
     {| trace := trace w ++
          [Print (lit "[DEBUG] Received query: " ++ query);
           Call (call_as_query_engine (engine_of i));
           Call (call_query (engine_of i) query);
           Print (lit "[ERROR] Query processing failed: " ++ exn_msg e)];
        tempfiles := tempfiles w |}).
Proof.
  intros Hengine Hquery He. unfold engine_of in *.
  unfold search_and_answer_with_top_blocks, search_body. unfold_monad. simpl.
  rewrite Hengine. simpl. rewrite Hquery. simpl. rewrite He. simpl.
  by rewrite <- !app_assoc.
Qed.

(** C7, as the code has it.  What becomes of a backend error that is an
    instance of [Exception] depends on the operation.  Raised while the
    records are written during ingestion, it is printed by [process_pdf]
    ("[ERROR] PDF processing failed: ...") and raised again, as it was
    raised (there is no wrapping error type).  Raised by the search inside
    the query, it is printed by [search_and_answer_with_top_blocks]
    ("[ERROR] Query processing failed: ...") and replaced by the pair
    ("Error: Unable to process the query", []): the caller receives that
    pair, not the error.  Raised by the count after ingestion, it is caught
    inside [check_vector_store], printed on the console and not passed on:
    the function returns normally and renders nothing. *)
Theorem store_errors_surface_except_count (X : Externals) (G : Globals) (w : World) :
  (∀ file p docs e,
     NamedTemporaryFile X = Ret p →
     temp_file_write X p (getvalue file) = Ret tt →
     load_data X p = Ret docs →
     from_documents X (Settings G) docs (storage_context G) = Raise e ∨
     (from_documents X (Settings G) docs (storage_context G) = Ret tt ∧
      persist X (storage_context G) = Raise e) →
     is_Exception e = true →
     fst (process_pdf X G file w) = Raise e ∧
     last (trace (snd (process_pdf X G file w)))
     = Some (Print (lit "[ERROR] PDF processing failed: " ++ exn_msg e))) ∧
  (∀ query i e,
     as_query_engine X (engine_of i) = Ret tt →
     query_engine_query X (engine_of i) query = Raise e →
     is_Exception e = true →
     fst (search_and_answer_with_top_blocks X query (Some i) w)
     = Ret (lit "Error: Unable to process the query", []) ∧
     last (trace (snd (search_and_answer_with_top_blocks X query (Some i) w)))
     = Some (Print (lit "[ERROR] Query processing failed: " ++ exn_msg e))) ∧
  (∀ e,
     count_documents X = Raise e →
     is_Exception e = true →
     fst (check_vector_store X w) = Ret tt ∧
     rendered (snd (check_vector_store X w)) = rendered w ∧
     last (trace (snd (check_vector_store X w)))
     = Some (Print (lit "[ERROR] Document count failed: " ++ exn_msg e))).
Proof.
  split; [|split].
  - intros file p docs e Hp Hw Hl Hs He. split.
    + by apply (process_pdf_reraises_store_error X G file w p docs e).
    + by apply (process_pdf_logs_store_error X G file w p docs e).
  - intros query i e Hengine Hquery He.
    rewrite (search_logs_query_error X query i e w Hengine Hquery He).
    split; [done|]. cbn [snd trace].
    match goal with |- last (?l ++ [?a; ?b; ?c; ?d]) = _ =>
      change (l ++ [a; b; c; d]) with (l ++ [a; b; c] ++ [d]) end.
    rewrite app_assoc. apply last_snoc.
  - intros e Hc He. rewrite (check_vector_store_swallows X w e Hc He). simpl.
    split; [done|]. split.
    + unfold rendered. simpl. rewrite filter_app. simpl. by rewrite app_nil_r.
    + match goal with |- last (?l ++ [?a; ?b]) = _ =>
        change (l ++ [a; b]) with (l ++ [a] ++ [b]) end.
      rewrite app_assoc. apply last_snoc.
Qed.

Lemma store_errors_surface_except_count_witness :
  (fst (process_pdf Scenario.upsert_fails Scenario.globals Scenario.pdf initial)
   = Raise Scenario.boom ∧
   last (trace (snd (process_pdf Scenario.upsert_fails Scenario.globals Scenario.pdf
                       initial)))
   = Some (Print (lit "[ERROR] PDF processing failed: " ++ exn_msg Scenario.boom))) ∧
  fst (search_and_answer_with_top_blocks Scenario.query_fails Scenario.question
         (Some Scenario.the_index) initial)
  = Ret (lit "Error: Unable to process the query", []) ∧
  fst (check_vector_store Scenario.count_fails initial) = Ret tt.
Proof.
  split; [|split].
  - apply (proj1 (store_errors_surface_except_count
                    Scenario.upsert_fails Scenario.globals initial)
             Scenario.pdf Scenario.tmp [ {| doc_text := lit "Some text." |} ]
             Scenario.boom);
      try reflexivity. left. reflexivity.
  - apply (proj1 (proj2 (store_errors_surface_except_count
                           Scenario.query_fails Scenario.globals initial))
             Scenario.question Scenario.the_index Scenario.boom);
      reflexivity.
  - apply (proj2 (proj2 (store_errors_surface_except_count
                           Scenario.count_fails Scenario.globals initial))
             Scenario.boom);
      reflexivity.
Defined.

(** ** The page *)

Lemma show_blocks_run (i : nat) (top_blocks : list str) (w : World) :
  show_blocks i top_blocks w
  = (Ret tt, {| trace := trace w ++ blocks_rendering i top_blocks;
                tempfiles := tempfiles w |}).
Proof.
  revert i w; induction top_blocks as [|b l IH]; intros i w; simpl.
  - unfold ret. rewrite app_nil_r. by destruct w.
  - unfold bind, st, log. rewrite IH. simpl. by rewrite <- app_assoc.
Qed.

(** What [show_result] does, in full. *)
Lemma show_result_run (answer : str) (top_blocks : list str) (w : World) :
  show_result answer top_blocks w
  = (Ret tt,
     {| trace := trace w ++
                 (if str_in (lit "Error") answer
                  then [Ui (st_error answer)]
                  else answer_rendering answer top_blocks);
        tempfiles := tempfiles w |}).
Proof.
  unfold show_result, answer_rendering. destruct (str_in _ answer); [done|].
  destruct top_blocks as [|b l].
  - unfold_monad. simpl. by rewrite <- app_assoc.
  - unfold bind at 1 2. unfold st, log. rewrite show_blocks_run. simpl.
    by rewrite <- !app_assoc.
Qed.

Lemma search_success_run (X : Externals) (query : str) (index : VectorStoreIndex)
    (resp : Response) (blocks : list str) (w : World) :
  retrieval_succeeds X query index resp blocks →
  search_and_answer_with_top_blocks X query (Some index) w
  = (Ret (response resp, blocks),
     {| trace := trace w ++
                 [Print (lit "[DEBUG] Received query: " ++ query);
                  Call (call_as_query_engine (engine_of index));
                  Call (call_query (engine_of index) query);
                  Print (lit "[DEBUG] Response received: " ++ response resp)];
        tempfiles := tempfiles w |}).
Proof.
  intros (He & Hq & Hb). unfold engine_of in *.
  unfold search_and_answer_with_top_blocks, search_body. unfold_monad. simpl.
  rewrite He, Hq. simpl. rewrite (collect_blocks_ok _ blocks [] _ Hb). simpl.
  by rewrite <- !app_assoc.
Qed.

(** The [k]-th block shown is the [k]-th block returned, stripped. *)
Lemma blocks_rendering_lookup (i k : nat) (top_blocks : list str) (block : str) :
  top_blocks !! k = Some block →
  blocks_rendering i top_blocks !! k
  = Some (Ui (st_markdown (block_markdown (i + k) block))).
Proof.
  revert i k; induction top_blocks as [|b l IH]; intros i [|k] H; simpl in *; try done.
  - injection H as ->. by rewrite Nat.add_0_r.
  - rewrite (IH (S i) k H). do 4 f_equal. lia.
Qed.

(** C5, counterexample.  A retrieval in which every step succeeded, with
    an answer that speaks of "HTTP Error codes": three blocks are
    returned, and the page shows the answer as an error and none of the
    blocks. *)
Lemma error_answer_hides_blocks :
  retrieval_succeeds Scenario.answer_mentions_Error Scenario.question Scenario.the_index
    Scenario.error_talk [lit " alpha "; lit "beta"; lit "gamma"] ∧
  fst (search_and_answer_with_top_blocks Scenario.answer_mentions_Error Scenario.question
         (Some Scenario.the_index) initial)
  = Ret (lit "The document lists HTTP Error codes.",
         [lit " alpha "; lit "beta"; lit "gamma"]) ∧
  rendered (snd (query_branch Scenario.answer_mentions_Error
                   (Some Scenario.the_index) initial))
  = [Ui (st_text_input (lit "Ask a question about the uploaded documents:"));
     Ui (st_spinner (lit "Searching..."));
     Ui (st_error (lit "The document lists HTTP Error codes."))].
Proof. repeat split; reflexivity. Qed.

(** C5, as the code has it.  When every step of the retrieval succeeds, the
    function builds the query engine with [similarity_top_k=3], sends it the
    query, and returns the answer text with the texts of the first three
    source nodes at most, in their order.  When "Error" does not occur in
    the answer, the page shows the answer and then each of these blocks,
    numbered from 1 in that order, inside a code fence, as the block with
    the white space at both ends cut off: what is shown is a part of the
    block, what was cut before and after it is white space only, and what
    is shown neither begins nor ends with white space.  When "Error" occurs
    in the answer, the page shows the answer as an error and no block. *)
Theorem successful_retrieval_returns_top_three
    (X : Externals) (query : str) (index : VectorStoreIndex)
    (resp : Response) (blocks : list str) (w : World) :
  retrieval_succeeds X query index resp blocks →
  let r := search_and_answer_with_top_blocks X query (Some index) w in
  fst r = Ret (response resp, blocks) ∧
  calls (snd r) = calls w ++
    [Call (call_as_query_engine
             {| engine_index := index; similarity_top_k := 3; verbose := true |});
     Call (call_query
             {| engine_index := index; similarity_top_k := 3; verbose := true |} query)] ∧
  length blocks ≤ 3 ∧
  map Ret blocks = map get_content (take 3 (source_nodes resp)) ∧
  (∀ w', trace (snd (show_result (response resp) blocks w'))
         = trace w' ++
           if str_in (lit "Error") (response resp)
           then [Ui (st_error (response resp))]
           else Ui (st_write [lit "**Answer:**"; response resp]) ::
                match blocks with
                | [] => [Ui (st_write [lit "No sources found."])]
                | _ :: _ => Ui (st_write [lit "**Top 3 Blocks Used (Sources):**"])
                            :: blocks_rendering 1 blocks
                end) ∧
  (∀ k block, blocks !! k = Some block →
     ∃ l shown r,
       blocks_rendering 1 blocks !! k
       = Some (Ui (st_markdown
                     (lit "**Block " ++ str_of_nat (S k) ++ lit ":**" ++ nl ++ lit "```" ++ nl
                      ++ shown ++ nl ++ lit "```"))) ∧
       block = l ++ shown ++ r ∧
       forallb isspace l = true ∧ forallb isspace r = true ∧
       (∀ c, head shown = Some c → isspace c = false) ∧
       (∀ c, last shown = Some c → isspace c = false)).
Proof.
  intros Hok r. subst r. rewrite (search_success_run X query index resp blocks w Hok).
  destruct Hok as (He & Hq & Hb). simpl.
  split; [done|]. split; [|split; [|split; [done|split]]].
  - unfold calls. simpl. rewrite filter_app. done.
  - rewrite <- (length_map Ret blocks), <- Hb, length_map, length_take. lia.
  - intros w'. rewrite show_result_run. done.
  - intros k block Hk.
    destruct (strip_spec block) as ((l & r & Hblock & Hl & Hr) & Hhead & Hlast).
    exists l, (strip block), r. split; [|done].
    apply (blocks_rendering_lookup 1 k blocks block Hk).
Qed.

Lemma successful_retrieval_returns_top_three_witness :
  fst (search_and_answer_with_top_blocks Scenario.all_fine Scenario.question
         (Some Scenario.the_index) initial)
  = Ret (lit "It is about vector search.", [lit " alpha "; lit "beta"; lit "gamma"]).
Proof.
  apply (successful_retrieval_returns_top_three Scenario.all_fine Scenario.question
           Scenario.the_index Scenario.good_answer
           [lit " alpha "; lit "beta"; lit "gamma"] initial).
  repeat split; reflexivity.
Defined.

Lemma query_branch_success_run (X : Externals) (index : VectorStoreIndex)
    (resp : Response) (blocks : list str) (w : World) :
  truthy (typed X) = true →
  retrieval_succeeds X (typed X) index resp blocks →
  query_branch X (Some index) w
  = (Ret tt,
     {| trace := trace w ++
          [Ui (st_text_input (lit "Ask a question about the uploaded documents:"));
           Ui (st_spinner (lit "Searching..."));
           Print (lit "[DEBUG] Received query: " ++ typed X);
           Call (call_as_query_engine (engine_of index));
           Call (call_query (engine_of index) (typed X));
           Print (lit "[DEBUG] Response received: " ++ response resp)] ++
          (if str_in (lit "Error") (response resp)
           then [Ui (st_error (response resp))]
           else answer_rendering (response resp) blocks);
        tempfiles := tempfiles w |}).
Proof.
  intros Hq Hok. unfold query_branch. rewrite Hq. simpl.
  unfold bind, st, log. rewrite (search_success_run X _ index resp blocks _ Hok).
  simpl. rewrite show_result_run. simpl. by rewrite <- !app_assoc.
Qed.

Lemma query_branch_failure_run (X : Externals) (index : VectorStoreIndex)
    (e : exn) (w : World) :
  truthy (typed X) = true →
  retrieval_fails X (typed X) (Some index) e →
  is_Exception e = true →
  fst (query_branch X (Some index) w) = Ret tt ∧
  last (trace (snd (query_branch X (Some index) w)))
  = Some (Ui (st_error (lit "Error: Unable to process the query"))).
Proof.
  intros Hq Hfail He.
  cut (∃ w2, query_branch X (Some index) w = (Ret tt, w2) ∧
             last (trace w2)
             = Some (Ui (st_error (lit "Error: Unable to process the query")))).
  { intros (w2 & -> & Hlast). done. }
  unfold query_branch. rewrite Hq. simpl.
  unfold bind at 1 2 3. unfold st at 1 2. unfold log.
  match goal with |- context [search_and_answer_with_top_blocks X _ _ ?w0] =>
    destruct (search_body_raises X (typed X) (Some index) e w0 Hfail) as [w' Hw'] end.
  unfold search_and_answer_with_top_blocks, try_except. rewrite Hw', He.
  unfold bind, print, log, ret. cbn [fst snd]. rewrite show_result_run.
  eexists. split; [reflexivity|]. unfold sentinel. cbn [fst snd trace].
  change (str_in _ _) with true. cbv iota. apply last_snoc.
Qed.

(** C9.  The page shows the pair as an error, and then shows nothing else
    of it, exactly when "Error" occurs in the answer; so a retrieval that
    succeeded with an answer in which "Error" occurs is shown as an error,
    without its answer heading and without any of its source blocks. *)
Theorem error_substring_decides_rendering
    (answer : str) (top_blocks : list str) (w : World) :
  ((∃ l r, answer = l ++ lit "Error" ++ r) ↔
   trace (snd (show_result answer top_blocks w)) = trace w ++ [Ui (st_error answer)]) ∧
  ((¬ ∃ l r, answer = l ++ lit "Error" ++ r) →
   trace (snd (show_result answer top_blocks w))
   = trace w ++ answer_rendering answer top_blocks) ∧
  (∀ X index resp,
     truthy (typed X) = true →
     retrieval_succeeds X (typed X) index resp top_blocks →
     response resp = answer →
     (∃ l r, answer = l ++ lit "Error" ++ r) →
     rendered (snd (query_branch X (Some index) w))
     = rendered w ++
       [Ui (st_text_input (lit "Ask a question about the uploaded documents:"));
        Ui (st_spinner (lit "Searching..."));
        Ui (st_error answer)]).
Proof.
  rewrite <- str_in_spec, show_result_run. cbn [snd trace]. split; [|split].
  - destruct (str_in _ answer); split; try done.
    intros H. apply app_inv_head in H. discriminate.
  - by destruct (str_in _ answer).
  - intros X index resp Hq Hok <- Hin. apply str_in_spec in Hin.
    rewrite (query_branch_success_run X index resp top_blocks w Hq Hok), Hin.
    unfold rendered. simpl. rewrite filter_app. done.
Qed.

Lemma error_substring_decides_rendering_witness :
  rendered (snd (query_branch Scenario.answer_mentions_Error (Some Scenario.the_index) initial))
  = [Ui (st_text_input (lit "Ask a question about the uploaded documents:"));
     Ui (st_spinner (lit "Searching..."));
     Ui (st_error (lit "The document lists HTTP Error codes."))].
Proof.
  apply (proj2 (proj2 (error_substring_decides_rendering
                         (lit "The document lists HTTP Error codes.")
                         [lit " alpha "; lit "beta"; lit "gamma"] initial))
           Scenario.answer_mentions_Error Scenario.the_index Scenario.error_talk).
  - reflexivity.
  - repeat split; reflexivity.
  - reflexivity.
  - exists (lit "The document lists HTTP "), (lit " codes."). reflexivity.
Defined.

(** The outcome of [process_pdf] depends on the oracles only. *)
Lemma process_pdf_outcome (X : Externals) (G : Globals) (file : UploadedFile)
    (w w' : World) :
  fst (process_pdf X G file w) = fst (process_pdf X G file w').
Proof.
  unfold process_pdf, process_pdf_body. unfold_monad. simpl.
  repeat case_oracle; reflexivity.
Qed.

Lemma upload_branch_failure_run (X : Externals) (G : Globals) (file : UploadedFile)
    (e : exn) (w : World) :
  uploaded X = Some file →
  fst (process_pdf X G file w) = Raise e →
  is_Exception e = true →
  fst (upload_branch X G w) = Ret tt ∧
  last (trace (snd (upload_branch X G w)))
  = Some (Ui (st_error (lit "Error processing the PDF: " ++ exn_msg e))).
Proof.
  intros Hup Hfail He.
  cut (∃ w2, upload_branch X G w = (Ret tt, w2) ∧
             last (trace w2)
             = Some (Ui (st_error (lit "Error processing the PDF: " ++ exn_msg e)))).
  { intros (w2 & -> & Hlast). done. }
  unfold upload_branch. rewrite Hup.
  unfold bind at 1 2. unfold st at 1 2. unfold log. unfold try_except, bind at 1.
  match goal with |- context [process_pdf X G file ?w0] =>
    rewrite (process_pdf_outcome X G file w w0) in Hfail;
    destruct (process_pdf X G file w0) as [o w1] end.
  simpl in Hfail. subst o. rewrite He. unfold st, log.
  eexists. split; [reflexivity | apply last_snoc].
Qed.

(** C8, counterexample.  The index cannot be loaded -- the backend raises
    an instance of [Exception] -- while the user asks a question: the page
    ends normally and shows the title, the uploader and the input box; the
    failure is on the console only and no [st.error] is shown for it. *)
Lemma index_failure_gets_no_message :
  from_vector_store Scenario.no_index (vector_store Scenario.globals)
    (embed_model Scenario.globals) = Raise Scenario.boom ∧
  is_Exception Scenario.boom = true ∧
  truthy (typed Scenario.no_index) = true ∧
  fst (page Scenario.no_index Scenario.globals initial) = Ret tt ∧
  rendered (snd (page Scenario.no_index Scenario.globals initial))
  = [Ui (st_title (lit "RAG Application with Streamlit, MongoDB, and LlamaIndex"));
     Ui (st_file_uploader (lit "Upload a PDF file"));
     Ui (st_text_input (lit "Ask a question about the uploaded documents:"))] ∧
  filter (λ e, is_error e = true)
         (trace (snd (page Scenario.no_index Scenario.globals initial))) = [] ∧
  Print (lit "[ERROR] Index loading failed: backend unavailable")
    ∈ trace (snd (page Scenario.no_index Scenario.globals initial)).
Proof.
  repeat split; try reflexivity.
  cbn. rewrite !elem_of_cons. do 4 right. left. reflexivity.
Qed.

(** C8, as the code has it.  Once start-up is over, a failure of a library
    call that is an instance of [Exception] is caught where it happens: none
    gets out of the upload branch, of [check_vector_store], of [load_index]
    or of [search_and_answer_with_top_blocks].  Two kinds of failure become
    a message to the user: when [process_pdf] raises, the upload branch ends
    normally and the last thing it shows is
    [st.error("Error processing the PDF: ...")] with the message of the
    error; when a step of the retrieval fails with a query typed and an
    index loaded, the query branch ends normally and the last thing it shows
    is [st.error("Error: Unable to process the query")].  The other two are
    printed on the console and shown to nobody: when the index cannot be
    loaded, [load_index] returns [None] and the query branch shows the input
    box and nothing more; when the count after an ingestion fails,
    [check_vector_store] returns normally and shows nothing. *)
Theorem request_errors_are_caught (X : Externals) (G : Globals) (w : World) :
  (escapes_Exception (fst (upload_branch X G w)) = false ∧
   escapes_Exception (fst (check_vector_store X w)) = false ∧
   escapes_Exception (fst (load_index X G w)) = false ∧
   ∀ query index,
     escapes_Exception (fst (search_and_answer_with_top_blocks X query index w)) = false) ∧
  (∀ file e,
     uploaded X = Some file →
     fst (process_pdf X G file w) = Raise e →
     is_Exception e = true →
     fst (upload_branch X G w) = Ret tt ∧
     last (trace (snd (upload_branch X G w)))
     = Some (Ui (st_error (lit "Error processing the PDF: " ++ exn_msg e)))) ∧
  (∀ index e,
     truthy (typed X) = true →
     retrieval_fails X (typed X) (Some index) e →
     is_Exception e = true →
     fst (query_branch X (Some index) w) = Ret tt ∧
     last (trace (snd (query_branch X (Some index) w)))
     = Some (Ui (st_error (lit "Error: Unable to process the query")))) ∧
  (∀ e,
     from_vector_store X (vector_store G) (embed_model G) = Raise e →
     is_Exception e = true →
     load_index X G w
     = (Ret None,
        {| trace := trace w ++
             [Print (lit "[DEBUG] Loading VectorStoreIndex from vector store");
              Call (call_from_vector_store (vector_store G) (embed_model G));
              Print (lit "[ERROR] Index loading failed: " ++ exn_msg e)];
           tempfiles := tempfiles w |}) ∧
     ∀ w1, fst (query_branch X None w1) = Ret tt ∧
           rendered (snd (query_branch X None w1))
           = rendered w1 ++
             [Ui (st_text_input (lit "Ask a question about the uploaded documents:"))]) ∧
  (∀ e,
     count_documents X = Raise e →
     is_Exception e = true →
     check_vector_store X w
     = (Ret tt,
        {| trace := trace w ++
             [Call call_count_documents;
              Print (lit "[ERROR] Document count failed: " ++ exn_msg e)];
           tempfiles := tempfiles w |})).
Proof.
  split; [|split; [|split; [|split]]].
  - split; [apply contained_upload_branch|].
    split; [apply contained_check_vector_store|].
    split; [apply contained_load_index|].
    intros query index. apply contained_search.
  - intros file e. apply upload_branch_failure_run.
  - intros index e. apply query_branch_failure_run.
  - intros e Hload He. split.
    + unfold load_index. unfold_monad. simpl. rewrite Hload, He. simpl.
      by rewrite <- !app_assoc.
    + intros w1. unfold query_branch. rewrite andb_false_r.
      unfold st, log, rendered. simpl. split; [done|]. by rewrite filter_app.
  - intros e. apply check_vector_store_swallows.
Qed.

Lemma request_errors_are_caught_witness :
  (fst (upload_branch Scenario.corrupt_pdf Scenario.globals initial) = Ret tt ∧
   last (trace (snd (upload_branch Scenario.corrupt_pdf Scenario.globals initial)))
   = Some (Ui (st_error (lit "Error processing the PDF: EOF marker not found")))) ∧
  (fst (query_branch Scenario.query_fails (Some Scenario.the_index) initial) = Ret tt ∧
   last (trace (snd (query_branch Scenario.query_fails (Some Scenario.the_index) initial)))
   = Some (Ui (st_error (lit "Error: Unable to process the query")))) ∧
  fst (load_index Scenario.no_index Scenario.globals initial) = Ret None ∧
  fst (check_vector_store Scenario.count_fails initial) = Ret tt.
Proof.
  pose proof (request_errors_are_caught Scenario.corrupt_pdf Scenario.globals initial)
    as (_ & Hupload & _).
  pose proof (request_errors_are_caught Scenario.query_fails Scenario.globals initial)
    as (_ & _ & Hquery & _).
  pose proof (request_errors_are_caught Scenario.no_index Scenario.globals initial)
    as (_ & _ & _ & Hload & _).
  pose proof (request_errors_are_caught Scenario.count_fails Scenario.globals initial)
    as (_ & _ & _ & _ & Hcount).
  split; [|split; [|split]].
  - apply (Hupload Scenario.pdf
             (Exn (OtherError "PdfReadError") (lit "EOF marker not found")));
      reflexivity.
  - apply (Hquery Scenario.the_index Scenario.boom);
      [reflexivity | apply fails_query; reflexivity | reflexivity].
  - destruct (Hload Scenario.boom eq_refl eq_refl) as [-> _]. reflexivity.
  - rewrite (Hcount Scenario.boom eq_refl eq_refl). reflexivity.
Defined.

(** ** A query without an index *)

(** C3, counterexample.  The index cannot be loaded and the user asks a
    question: the run ends normally, having shown the title, the uploader
    and the input box, and no error; the retrieval was never called. *)
Lemma no_index_query_shows_nothing :
  fst (load_index Scenario.no_index Scenario.globals initial) = Ret None ∧
  truthy (typed Scenario.no_index) = true ∧
  fst (main Scenario.no_index initial) = Ret tt ∧
  rendered (snd (main Scenario.no_index initial))
  = [Ui (st_title (lit "RAG Application with Streamlit, MongoDB, and LlamaIndex"));
     Ui (st_file_uploader (lit "Upload a PDF file"));
     Ui (st_text_input (lit "Ask a question about the uploaded documents:"))] ∧
  Ui (st_error (lit "Error: Unable to process the query"))
    ∉ trace (snd (main Scenario.no_index initial)).
Proof.
  repeat split; try reflexivity.
  cbn. rewrite !elem_of_cons, elem_of_nil. intros H.
  repeat (destruct H as [H|H]; [discriminate|]). exact H.
Qed.

(** C3, as the code has it.  When loading the index fails, [load_index]
    returns [None]; with [None] the query branch shows the input box and
    does nothing more, whatever was typed: no retrieval is called and
    neither an answer nor an error is shown.  Called with [None] directly,
    [search_and_answer_with_top_blocks] returns the pair
    ("Error: Unable to process the query", []). *)
Theorem missing_index_skips_retrieval (X : Externals) (G : Globals) (w : World) (e : exn) :
  from_vector_store X (vector_store G) (embed_model G) = Raise e →
  is_Exception e = true →
  fst (load_index X G w) = Ret None ∧
  (∀ w1, query_branch X None w1
         = (Ret tt,
            {| trace := trace w1 ++
                 [Ui (st_text_input (lit "Ask a question about the uploaded documents:"))];
               tempfiles := tempfiles w1 |})) ∧
  (∀ query w1,
     fst (search_and_answer_with_top_blocks X query None w1)
     = Ret (lit "Error: Unable to process the query", [])).
Proof.
  intros Hload He. split; [|split].
  - unfold load_index. unfold_monad. simpl. by rewrite Hload, He.
  - intros w1. unfold query_branch. rewrite andb_false_r. reflexivity.
  - intros query w1. reflexivity.
Qed.

Lemma missing_index_skips_retrieval_witness :
  fst (load_index Scenario.no_index Scenario.globals initial) = Ret None.
Proof.
  apply (missing_index_skips_retrieval Scenario.no_index Scenario.globals initial
           Scenario.boom);
    reflexivity.
Defined.

(** ** The exact flag *)

Section Keeps.

Context {A B : Type} (P : event → Prop).

Lemma keeps_ret (a : A) : keeps P (ret a).
Proof. by intros w. Qed.

Lemma keeps_raise (e : exn) : keeps P (@raise A e).
Proof. by intros w. Qed.

Lemma keeps_bind_post (Q : A → Prop) (m : M A) (k : A → M B) :
  keeps P m → returns Q m → (∀ a, Q a → keeps P (k a)) → keeps P (bind m k).
Proof.
  intros Hm HQ Hk w Hw. unfold bind. specialize (Hm w Hw). specialize (HQ w).
  destruct (m w) as [[a|e] w']; simpl in *; [|done].
  apply Hk; [by apply HQ | done].
Qed.

Lemma keeps_bind (m : M A) (k : A → M B) :
  keeps P m → (∀ a, keeps P (k a)) → keeps P (bind m k).
Proof.
  intros Hm Hk. apply (keeps_bind_post (λ _, True)); [done | done | auto].
Qed.

Lemma keeps_try (body : M A) (C : exn → bool) (handler : exn → M A) :
  keeps P body → (∀ e, keeps P (handler e)) → keeps P (try_except body C handler).
Proof.
  intros Hb Hh w Hw. unfold try_except. specialize (Hb w Hw).
  destruct (body w) as [[a|e] w']; simpl in *; [done|].
  destruct (C e); [by apply Hh | done].
Qed.

Lemma keeps_ext (c : call) (o : outcome A) : P (Call c) → keeps P (ext c o).
Proof. intros Hc w Hw. simpl. apply Forall_app. split; [done | by constructor]. Qed.

End Keeps.

Lemma keeps_log (P : event → Prop) (e : event) : P e → keeps P (log e).
Proof. intros He w Hw. simpl. apply Forall_app. split; [done | by constructor]. Qed.

Lemma keeps_fs_create (P : event → Prop) (p : path) : keeps P (fs_create p).
Proof. by intros w. Qed.

Lemma keeps_fs_remove (P : event → Prop) (p : path) : keeps P (fs_remove p).
Proof. by intros w. Qed.

Lemma keeps_collect_blocks (P : event → Prop) (nodes : list NodeWithScore)
    (acc : list str) :
  keeps P (collect_blocks nodes acc).
Proof. intros w Hw. by rewrite collect_blocks_world. Qed.

Lemma blocks_rendering_asks_exact (i : nat) (top_blocks : list str) :
  Forall asks_exact (blocks_rendering i top_blocks).
Proof.
  revert i; induction top_blocks as [|b l IH]; intros i; simpl; constructor;
    [exact I | apply IH].
Qed.

Lemma keeps_show_result (answer : str) (top_blocks : list str) :
  keeps asks_exact (show_result answer top_blocks).
Proof.
  intros w Hw. rewrite show_result_run. cbn [snd trace].
  apply Forall_app. split; [done|].
  destruct (str_in _ answer); [by repeat constructor|].
  unfold answer_rendering. constructor; [exact I|].
  destruct top_blocks; [by repeat constructor|].
  constructor; [exact I | apply blocks_rendering_asks_exact].
Qed.

(** One step through a sequence of statements whose events are harmless or
    are settled by the hypotheses at hand. *)
Ltac keeps_step :=
  lazymatch goal with
  | |- keeps _ (ret _) => apply keeps_ret
  | |- keeps _ (raise _) => apply keeps_raise
  | |- keeps _ (fs_create _) => apply keeps_fs_create
  | |- keeps _ (fs_remove _) => apply keeps_fs_remove
  | |- keeps _ (collect_blocks _ _) => apply keeps_collect_blocks
  | |- keeps _ (show_result _ _) => apply keeps_show_result
  | |- keeps _ (log _) => apply keeps_log; exact I
  | |- keeps _ (ext _ _) =>
      apply keeps_ext;
      cbn [asks_exact sc_vector_store index_vector_store engine_index exact];
      first [exact I | assumption | reflexivity]
  | |- keeps _ (try_except _ _ _) => apply keeps_try; [| intros ?]
  | |- keeps _ (bind _ _) => apply keeps_bind; [| intros ?]
  | |- keeps _ _ => progress cbv beta iota zeta
  end.

Ltac keeps_auto := unfold print, st; repeat keeps_step.

Lemma keeps_initialize_mongodb (X : Externals) : keeps asks_exact (initialize_mongodb X).
Proof.
  unfold initialize_mongodb. destruct (getenv_MONGODB_URI X) as [uri|]; [|keeps_auto].
  destruct (negb (truthy uri)); keeps_auto.
Qed.

Lemma keeps_initialize_embed_model (X : Externals) :
  keeps asks_exact (initialize_embed_model X).
Proof. unfold initialize_embed_model. keeps_auto. Qed.

Lemma keeps_initialize_vector_store (X : Externals) (c : MongoClient) :
  keeps asks_exact (initialize_vector_store X c).
Proof. unfold initialize_vector_store. keeps_auto. Qed.

(** The one place where the vector store is built. *)
Lemma initialize_vector_store_exact (X : Externals) (c : MongoClient) :
  returns (λ v, exact v = lit "True") (initialize_vector_store X c).
Proof.
  intros w v. unfold initialize_vector_store. unfold_monad. simpl.
  repeat case_oracle; intros [= <-]; reflexivity.
Qed.

Lemma keeps_startup (X : Externals) : keeps asks_exact (startup X).
Proof.
  unfold startup.
  apply keeps_bind; [apply keeps_initialize_mongodb | intros c].
  apply keeps_bind; [keeps_auto | intros _].
  apply keeps_bind; [apply keeps_initialize_embed_model | intros m].
  apply (keeps_bind_post _ (λ v, exact v = lit "True"));
    [apply keeps_initialize_vector_store | apply initialize_vector_store_exact |].
  intros v Hv. keeps_auto.
Qed.

Lemma startup_exact (X : Externals) : returns exact_globals (startup X).
Proof.
  intros w G. unfold startup, bind.
  destruct (initialize_mongodb X w) as [[c|e] w1]; [|discriminate].
  unfold ext at 1.
  destruct (new_GridFS X); [|discriminate].
  match goal with |- context [initialize_embed_model X ?w0] =>
    destruct (initialize_embed_model X w0) as [[m|e] w2]; [|discriminate] end.
  pose proof (initialize_vector_store_exact X c w2) as Hv.
  destruct (initialize_vector_store X c w2) as [[v|e] w3]; [|discriminate].
  unfold ext, ret. simpl.
  destruct (StorageContext_from_defaults X v); [|discriminate].
  intros [= <-]. split; simpl; by apply Hv.
Qed.

Lemma keeps_process_pdf (X : Externals) (G : Globals) (file : UploadedFile) :
  exact_globals G → keeps asks_exact (process_pdf X G file).
Proof. intros [Hv Hs]. unfold process_pdf, process_pdf_body. keeps_auto. Qed.

Lemma keeps_upload_branch (X : Externals) (G : Globals) :
  exact_globals G → keeps asks_exact (upload_branch X G).
Proof.
  intros HG. unfold upload_branch, check_vector_store.
  apply keeps_bind; [keeps_auto | intros _].
  destruct (uploaded X); [|keeps_auto].
  apply keeps_bind; [keeps_auto | intros _].
  apply keeps_try; [|intros e; keeps_auto].
  apply keeps_bind; [by apply keeps_process_pdf | intros n]. keeps_auto.
Qed.

Lemma keeps_load_index (X : Externals) (G : Globals) :
  exact_globals G → keeps asks_exact (load_index X G).
Proof. intros [Hv Hs]. unfold load_index. keeps_auto. Qed.

Lemma load_index_exact (X : Externals) (G : Globals) :
  exact_globals G →
  returns (λ index, ∀ i, index = Some i → exact (index_vector_store i) = lit "True")
          (load_index X G).
Proof.
  intros [Hv Hs] w index. unfold load_index. unfold_monad. simpl.
  repeat case_oracle; intros [= <-] i [= <-]; done.
Qed.

Lemma keeps_search (X : Externals) (query : str) (index : option VectorStoreIndex) :
  (∀ i, index = Some i → exact (index_vector_store i) = lit "True") →
  keeps asks_exact (search_and_answer_with_top_blocks X query index).
Proof.
  intros Hi. unfold search_and_answer_with_top_blocks, search_body.
  apply keeps_try; [|intros e; keeps_auto].
  apply keeps_bind; [keeps_auto | intros _].
  destruct index as [i|].
  - specialize (Hi i eq_refl).
    apply (keeps_bind_post _ (λ q, q = engine_of i)).
    + keeps_auto.
    + intros w q. unfold bind, ext, ret. simpl.
      destruct (as_query_engine X _); [by intros [= <-] | discriminate].
    + intros q ->. keeps_auto.
  - apply (keeps_bind_post _ (λ _, False));
      [keeps_auto | intros w q; discriminate | intros q []].
Qed.

Lemma keeps_query_branch (X : Externals) (index : option VectorStoreIndex) :
  (∀ i, index = Some i → exact (index_vector_store i) = lit "True") →
  keeps asks_exact (query_branch X index).
Proof.
  intros Hi. unfold query_branch.
  apply keeps_bind; [keeps_auto | intros _].
  destruct (_ && _); [|keeps_auto].
  apply keeps_bind; [keeps_auto | intros _].
  apply keeps_bind; [by apply keeps_search | intros r; keeps_auto].
Qed.

Lemma keeps_page (X : Externals) (G : Globals) :
  exact_globals G → keeps asks_exact (page X G).
Proof.
  intros HG. unfold page.
  apply keeps_bind; [keeps_auto | intros _].
  apply keeps_bind; [by apply keeps_upload_branch | intros _].
  apply (keeps_bind_post _ _ _ _ (keeps_load_index X G HG) (load_index_exact X G HG)).
  intros index. apply keeps_query_branch.
Qed.

(** ** Chunking parameters

    The split itself is made inside [VectorStoreIndex.from_documents]; the
    script fixes its two parameters. *)
Lemma startup_chunk_settings (X : Externals) :
  returns (λ G, chunk_size (Settings G) = 100 ∧ chunk_overlap (Settings G) = 10)
          (startup X).
Proof.
  intros w G. unfold startup, bind.
  destruct (initialize_mongodb X w) as [[c|e] w1]; [|discriminate].
  unfold ext at 1.
  destruct (new_GridFS X); [|discriminate].
  match goal with |- context [initialize_embed_model X ?w0] =>
    destruct (initialize_embed_model X w0) as [[m|e] w2]; [|discriminate] end.
  destruct (initialize_vector_store X c w2) as [[v|e] w3]; [|discriminate].
  unfold ext, ret. simpl.
  destruct (StorageContext_from_defaults X v); [|discriminate].
  intros [= <-]. done.
Qed.

(** A run in which everything works: what the user sees. *)
Example all_fine_page :
  fst (main Scenario.all_fine initial) = Ret tt ∧
  rendered (snd (main Scenario.all_fine initial))
  = [Ui (st_title (lit "RAG Application with Streamlit, MongoDB, and LlamaIndex"));
     Ui (st_file_uploader (lit "Upload a PDF file"));
     Ui (st_spinner (lit "Processing PDF..."));
     Ui (st_success (lit "PDF processed and saved successfully. Documents processed: 1"));
     Ui (st_text_input (lit "Ask a question about the uploaded documents:"));
     Ui (st_spinner (lit "Searching..."));
     Ui (st_write [lit "**Answer:**"; lit "It is about vector search."]);
     Ui (st_write [lit "**Top 3 Blocks Used (Sources):**"]);
     Ui (st_markdown (lit "**Block 1:**" ++ nl ++ lit "```" ++ nl ++ lit "alpha"
                      ++ nl ++ lit "```"));
     Ui (st_markdown (lit "**Block 2:**" ++ nl ++ lit "```" ++ nl ++ lit "beta"
                      ++ nl ++ lit "```"));
     Ui (st_markdown (lit "**Block 3:**" ++ nl ++ lit "```" ++ nl ++ lit "gamma"
                      ++ nl ++ lit "```"))] ∧
  tempfiles (snd (main Scenario.all_fine initial)) = (({[ Scenario.tmp ]} ∪ ∅) ∖ {[ Scenario.tmp ]}).
Proof. repeat split; reflexivity. Qed.

(** * The rest of the script *)

(** ** What a statement adds to the trace *)

Section Appends.

Context {A B : Type} (P : event → Prop).

Lemma appends_ret (a : A) : appends P (ret a).
Proof. intros w. exists []. by rewrite app_nil_r. Qed.

Lemma appends_raise (e : exn) : appends P (@raise A e).
Proof. intros w. exists []. by rewrite app_nil_r. Qed.

Lemma appends_bind (m : M A) (k : A → M B) :
  appends P m → (∀ a, appends P (k a)) → appends P (bind m k).
Proof.
  intros Hm Hk w. unfold bind. destruct (Hm w) as (t & Ht & HP).
  destruct (m w) as [[a|e] w']; simpl in *; [|by exists t].
  destruct (Hk a w') as (t' & Ht' & HP'). exists (t ++ t').
  rewrite Ht', Ht, app_assoc. split; [done | by apply Forall_app].
Qed.

Lemma appends_try (body : M A) (C : exn → bool) (handler : exn → M A) :
  appends P body → (∀ e, appends P (handler e)) → appends P (try_except body C handler).
Proof.
  intros Hb Hh w. unfold try_except. destruct (Hb w) as (t & Ht & HP).
  destruct (body w) as [[a|e] w']; simpl in *; [by exists t|].
  destruct (C e); [|by exists t].
  destruct (Hh e w') as (t' & Ht' & HP'). exists (t ++ t').
  rewrite Ht', Ht, app_assoc. split; [done | by apply Forall_app].
Qed.

Lemma appends_ext (c : call) (o : outcome A) : P (Call c) → appends P (ext c o).
Proof. intros Hc w. exists [Call c]. split; [done | by constructor]. Qed.

End Appends.

Lemma appends_log (P : event → Prop) (e : event) : P e → appends P (log e).
Proof. intros He w. exists [e]. split; [done | by constructor]. Qed.

Lemma appends_fs_create (P : event → Prop) (p : path) : appends P (fs_create p).
Proof. intros w. exists []. by rewrite app_nil_r. Qed.

Lemma appends_fs_remove (P : event → Prop) (p : path) : appends P (fs_remove p).
Proof. intros w. exists []. by rewrite app_nil_r. Qed.

Lemma appends_collect_blocks (P : event → Prop) (nodes : list NodeWithScore)
    (acc : list str) :
  appends P (collect_blocks nodes acc).
Proof. intros w. exists []. by rewrite collect_blocks_world, app_nil_r. Qed.

(** Appending events that are not shown leaves what the user sees as it was. *)
Lemma appends_not_ui_rendered {A} (m : M A) (w : World) :
  appends not_ui m → rendered (snd (m w)) = rendered w.
Proof.
  intros Hm. destruct (Hm w) as (t & Ht & HP). unfold rendered. rewrite Ht, filter_app.
  assert (filter (λ e, is_ui e = true) t = []) as ->; [|by rewrite app_nil_r].
  clear Ht. induction HP as [|e t He _ IH]; [done|].
  rewrite filter_cons_False; [exact IH|]. unfold not_ui in He. congruence.
Qed.

Ltac appends_step :=
  lazymatch goal with
  | |- appends _ (ret _) => apply appends_ret
  | |- appends _ (raise _) => apply appends_raise
  | |- appends _ (fs_create _) => apply appends_fs_create
  | |- appends _ (fs_remove _) => apply appends_fs_remove
  | |- appends _ (collect_blocks _ _) => apply appends_collect_blocks
  | |- appends _ (log _) => apply appends_log; reflexivity
  | |- appends _ (ext _ _) => apply appends_ext; reflexivity
  | |- appends _ (try_except _ _ _) => apply appends_try; [| intros ?]
  | |- appends _ (bind _ _) => apply appends_bind; [| intros ?]
  | |- appends _ _ => progress cbv beta iota zeta
  end.

Ltac appends_auto := unfold print; repeat appends_step.

Section KeepsFiles.

Context {A B : Type}.

Lemma keeps_files_ret (a : A) : keeps_files (ret a).
Proof. by intros w. Qed.

Lemma keeps_files_raise (e : exn) : keeps_files (@raise A e).
Proof. by intros w. Qed.

Lemma keeps_files_bind (m : M A) (k : A → M B) :
  keeps_files m → (∀ a, keeps_files (k a)) → keeps_files (bind m k).
Proof.
  intros Hm Hk w. unfold bind. specialize (Hm w).
  destruct (m w) as [[a|e] w']; simpl in *; [by rewrite Hk | done].
Qed.

Lemma keeps_files_try (body : M A) (C : exn → bool) (handler : exn → M A) :
  keeps_files body → (∀ e, keeps_files (handler e)) →
  keeps_files (try_except body C handler).
Proof.
  intros Hb Hh w. unfold try_except. specialize (Hb w).
  destruct (body w) as [[a|e] w']; simpl in *; [done|].
  destruct (C e); [by rewrite Hh | done].
Qed.

Lemma keeps_files_ext (c : call) (o : outcome A) : keeps_files (ext c o).
Proof. by intros w. Qed.

End KeepsFiles.

Lemma keeps_files_log (e : event) : keeps_files (log e).
Proof. by intros w. Qed.

Lemma keeps_files_collect_blocks (nodes : list NodeWithScore) (acc : list str) :
  keeps_files (collect_blocks nodes acc).
Proof. intros w. by rewrite collect_blocks_world. Qed.

Lemma keeps_files_show_result (answer : str) (top_blocks : list str) :
  keeps_files (show_result answer top_blocks).
Proof. intros w. by rewrite show_result_run. Qed.

Ltac keeps_files_step :=
  lazymatch goal with
  | |- keeps_files (ret _) => apply keeps_files_ret
  | |- keeps_files (raise _) => apply keeps_files_raise
  | |- keeps_files (collect_blocks _ _) => apply keeps_files_collect_blocks
  | |- keeps_files (show_result _ _) => apply keeps_files_show_result
  | |- keeps_files (log _) => apply keeps_files_log
  | |- keeps_files (ext _ _) => apply keeps_files_ext
  | |- keeps_files (try_except _ _ _) => apply keeps_files_try; [| intros ?]
  | |- keeps_files (bind _ _) => apply keeps_files_bind; [| intros ?]
  | |- keeps_files _ => progress cbv beta iota zeta
  end.

Ltac keeps_files_auto := unfold print, st; repeat keeps_files_step.

(** ** Start-up, in full *)

Lemma appends_startup (X : Externals) : appends not_ui (startup X).
Proof.
  unfold startup, initialize_mongodb, initialize_embed_model, initialize_vector_store.
  destruct (getenv_MONGODB_URI X) as [uri|]; [destruct (negb (truthy uri))|];
    appends_auto.
Qed.

Lemma keeps_files_startup (X : Externals) : keeps_files (startup X).
Proof.
  unfold startup, initialize_mongodb, initialize_embed_model, initialize_vector_store.
  destruct (getenv_MONGODB_URI X) as [uri|]; [destruct (negb (truthy uri))|];
    keeps_files_auto.
Qed.


(** X1.  The liveness probe of [initialize_mongodb] fails: the run ends with
    the very exception the probe raised, after the client was constructed
    and probed and before anything else is constructed or shown.  The
    failure is printed when it is a [ConnectionFailure], and only then. *)
Theorem probe_failure_aborts_startup (X : Externals) (uri : str) (e : exn) (w : World) :
  getenv_MONGODB_URI X = Some uri →
  truthy uri = true →
  new_MongoClient X uri = Ret tt →
  admin_command_ismaster X {| client_uri := uri |} = Raise e →
  main X w
  = (Raise e,
     {| trace := trace w ++
          [Call (call_MongoClient uri); Call (call_ismaster {| client_uri := uri |})] ++
          (if is_ConnectionFailure e
           then [Print (lit "[ERROR] Failed to connect to MongoDB: " ++ exn_msg e)]
           else []);
        tempfiles := tempfiles w |}).
Proof.
  intros Henv Huri Hclient Hprobe.
  unfold main, startup, initialize_mongodb. rewrite Henv, Huri. unfold_monad. simpl.
  rewrite Hclient, Hprobe. simpl. destruct (is_ConnectionFailure e); simpl;
    by rewrite <- !app_assoc.
Qed.

Lemma probe_failure_aborts_startup_witness :
  main StartupScenario.unreachable initial
  = (Raise StartupScenario.timeout,
     {| trace := [Call (call_MongoClient StartupScenario.the_uri);
                  Call (call_ismaster {| client_uri := StartupScenario.the_uri |});
                  Print (lit "[ERROR] Failed to connect to MongoDB: No servers found yet")];
        tempfiles := ∅ |}).
Proof.
  apply (probe_failure_aborts_startup StartupScenario.unreachable
           StartupScenario.the_uri StartupScenario.timeout initial);
    reflexivity.
Defined.



(** X3.  Start-up shows nothing and stages no file, whether it goes through
    or not; and when it raises, the run ends there with that exception: the
    page is not entered. *)
Theorem startup_failure_ends_run (X : Externals) (w : World) :
  rendered (snd (startup X w)) = rendered w ∧
  tempfiles (snd (startup X w)) = tempfiles w ∧
  (∀ e, fst (startup X w) = Raise e →
        main X w = (Raise e, snd (startup X w)) ∧
        rendered (snd (main X w)) = rendered w).
Proof.
  pose proof (appends_not_ui_rendered (startup X) w (appends_startup X)) as Hr.
  split; [exact Hr|]. split; [apply keeps_files_startup|].
  intros e He. unfold main, bind.
  destruct (startup X w) as [[G|e'] w']; simpl in *; [discriminate|].
  injection He as ->. done.
Qed.

Lemma startup_failure_ends_run_witness :
  main StartupScenario.no_api_key initial
  = (Raise StartupScenario.no_key, snd (startup StartupScenario.no_api_key initial)) ∧
  rendered (snd (main StartupScenario.no_api_key initial)) = rendered initial.
Proof.
  apply (proj2 (proj2 (startup_failure_ends_run StartupScenario.no_api_key initial))).
  reflexivity.
Defined.

(** With nothing kept, the memoised start-up is [startup]. *)
Lemma startup_memo_cold (X : Externals) (w : World) :
  fst (startup_memo X cold w) = startup X w.
Proof.
  unfold startup_memo, startup, cache_resource, cold, bind. simpl.
  destruct (initialize_mongodb X w) as [[c|e] w1]; simpl; [|done].
  destruct (new_GridFS X); simpl; [|done].
  destruct (initialize_embed_model X _) as [[m|e] w3]; simpl; [|done].
  destruct (initialize_vector_store X c w3) as [[v|e] w4]; simpl; [|done].
  by destruct (StorageContext_from_defaults X v).
Qed.



(** X17.  The vector store is built in one place, with the string "True"
    for [exact].  When start-up returns in a process whose kept vector store,
    if there is one, was built that way, the vector store of the globals and
    the one under the storage context have [exact="True"]; when none was
    kept, the constructor has been called in this run, with that argument.
    A run of the page on such globals, and a whole first run of the script,
    make no call on a vector store -- construction, storage context,
    ingestion, persist, loading of the index, building of the query engine,
    query -- other than on one built with [exact="True"]. *)
Theorem exact_flag_reaches_every_call (X : Externals) :
  (∀ c w G w' kept,
     (∀ v, memo_vector_store c = Some v → exact v = lit "True") →
     startup_memo X c w = (Ret G, w', kept) →
     exact (vector_store G) = lit "True" ∧
     exact (sc_vector_store (storage_context G)) = lit "True" ∧
     (memo_vector_store c = None →
      Call (call_MongoDBAtlasVectorSearch (vector_store G)) ∈ trace w')) ∧
  (∀ G w,
     exact (vector_store G) = lit "True" →
     exact (sc_vector_store (storage_context G)) = lit "True" →
     Forall asks_exact (trace w) →
     Forall asks_exact (trace (snd (page X G w)))) ∧
  Forall asks_exact (trace (snd (main X initial))).
Proof.
  split; [|split].
  - intros c w G w' kept Hkept. unfold startup_memo.
    destruct (cache_resource (memo_mongodb c) (initialize_mongodb X) w)
      as [[[cl|e] w1] k1]; [|discriminate].
    unfold ext at 1. destruct (new_GridFS X); [|discriminate].
    match goal with |- context [cache_resource (memo_embed_model c) _ ?w0] =>
      destruct (cache_resource (memo_embed_model c) (initialize_embed_model X) w0)
        as [[[m|e] w3] k3]; [|discriminate] end.
    unfold cache_resource.
    destruct (memo_vector_store c) as [v|] eqn:Hv.
    + unfold ext. destruct (StorageContext_from_defaults X v); [|discriminate].
      intros [= <- <- <-]. cbn [vector_store storage_context sc_vector_store].
      split; [by apply Hkept|]. split; [by apply Hkept | discriminate].
    + pose proof (initialize_vector_store_exact X cl w3) as Hexact.
      assert (∀ v w4, initialize_vector_store X cl w3 = (Ret v, w4) →
                Call (call_MongoDBAtlasVectorSearch v) ∈ trace w4) as Hcalled.
      { intros v w4. unfold initialize_vector_store. unfold_monad. simpl.
        repeat case_oracle; intros [= <- <-]. simpl.
        rewrite !elem_of_app, !list_elem_of_singleton. tauto. }
      destruct (initialize_vector_store X cl w3) as [[v|e] w4]; [|discriminate].
      unfold ext. destruct (StorageContext_from_defaults X v); [|discriminate].
      intros [= <- <- <-]. cbn [vector_store storage_context sc_vector_store trace].
      split; [by apply Hexact|]. split; [by apply Hexact|]. intros _.
      apply elem_of_app. left. by apply Hcalled.
  - intros G w Hv Hs. by apply keeps_page.
  - assert (keeps asks_exact (main X)) as Hmain.
    { unfold main.
      apply (keeps_bind_post _ _ _ _ (keeps_startup X) (startup_exact X)).
      intros G. apply keeps_page. }
    exact (Hmain initial (Forall_nil_2 _)).
Qed.

Lemma exact_flag_reaches_every_call_witness :
  exact (vector_store Scenario.globals) = lit "True" ∧
  exact (sc_vector_store (storage_context Scenario.globals)) = lit "True" ∧
  (memo_vector_store cold = None →
   Call (call_MongoDBAtlasVectorSearch (vector_store Scenario.globals))
     ∈ trace (snd (fst (startup_memo Scenario.all_fine cold initial)))).
Proof.
  apply (proj1 (exact_flag_reaches_every_call Scenario.all_fine) cold initial
           Scenario.globals (snd (fst (startup_memo Scenario.all_fine cold initial)))
           (memo_of Scenario.globals)).
  - intros v Hv. discriminate.
  - reflexivity.
Defined.

(** ** Ingestion, in full *)

Lemma process_pdf_success_run (X : Externals) (G : Globals) (file : UploadedFile)
    (p : path) (docs : list Document) (w : World) :
  ingestion_succeeds X G file p docs →
  process_pdf X G file w
  = (Ret (length docs),
     {| trace := trace w ++
          [Call call_NamedTemporaryFile;
           Call (call_write p (getvalue file));
           Print (lit "[DEBUG] Temporary file created at " ++ p);
           Call (call_load_data p);
           Print (lit "[DEBUG] Documents loaded: " ++ str_of_nat (length docs));
           Call (call_from_documents (Settings G) docs (storage_context G));
           Call (call_persist (storage_context G));
           Print (lit "[DEBUG] VectorStoreIndex created and saved successfully");
           Call (call_unlink p);
           Print (lit "[DEBUG] Temporary file deleted")];
        tempfiles := ({[ p ]} ∪ tempfiles w) ∖ {[ p ]} |}).
Proof.
  intros (Hp & Hw & Hl & Hf & Hs & Hu).
  unfold process_pdf, process_pdf_body. unfold_monad. simpl.
  rewrite Hp. simpl. rewrite Hw. simpl. rewrite Hl. simpl. rewrite Hf. simpl.
  rewrite Hs. simpl. rewrite Hu. simpl. by rewrite <- !app_assoc.
Qed.

Lemma calls_app (t : list event) (w : World) (f : gset path) :
  calls {| trace := trace w ++ t; tempfiles := f |}
  = calls w ++ filter (λ e, is_call e = true) t.
Proof. unfold calls. simpl. apply filter_app. Qed.

(** X5.  When every step succeeds, [process_pdf] returns the number of
    documents the reader produced, having called the libraries once each in
    the order: temporary file, write of the uploaded bytes, reader, indexing
    with the global settings and storage context, persist, unlink; the
    staged file is gone afterwards. *)
Theorem ingestion_success_run (X : Externals) (G : Globals) (file : UploadedFile)
    (p : path) (docs : list Document) (w : World) :
  ingestion_succeeds X G file p docs →
  fst (process_pdf X G file w) = Ret (length docs) ∧
  calls (snd (process_pdf X G file w)) = calls w ++ ingestion_calls G file p docs ∧
  (p ∉ tempfiles (snd (process_pdf X G file w))) ∧
  rendered (snd (process_pdf X G file w)) = rendered w.
Proof.
  intros Hok. rewrite (process_pdf_success_run X G file p docs w Hok). simpl.
  split; [done|]. split; [|split].
  - by rewrite calls_app.
  - rewrite elem_of_difference, elem_of_singleton. tauto.
  - unfold rendered. simpl. rewrite filter_app. simpl. by rewrite app_nil_r.
Qed.

Lemma ingestion_success_run_witness :
  fst (process_pdf Scenario.all_fine Scenario.globals Scenario.pdf initial) = Ret 1.
Proof.
  apply (ingestion_success_run Scenario.all_fine Scenario.globals Scenario.pdf
           Scenario.tmp [ {| doc_text := lit "Some text." |} ] initial).
  repeat split; reflexivity.
Defined.

(** X6.  [process_pdf] returns only when every step has succeeded: the file
    was staged and written, the reader returned documents, indexing, persist
    and unlink went through; and the number returned is the number of those
    documents.  No failure is turned into a count. *)
Theorem ingestion_returns_only_on_success (X : Externals) (G : Globals)
    (file : UploadedFile) (w : World) (n : nat) :
  fst (process_pdf X G file w) = Ret n →
  ∃ p docs, ingestion_succeeds X G file p docs ∧ n = length docs.
Proof.
  unfold process_pdf, process_pdf_body. unfold_monad. simpl.
  destruct (NamedTemporaryFile X) as [p|e] eqn:Hp; simpl;
    [|destruct (is_Exception e); discriminate].
  destruct (temp_file_write X p (getvalue file)) as [[]|e] eqn:Hw; simpl;
    [|destruct (is_Exception e); discriminate].
  destruct (load_data X p) as [docs|e] eqn:Hl; simpl;
    [|destruct (is_Exception e); discriminate].
  destruct (from_documents X (Settings G) docs (storage_context G)) as [[]|e] eqn:Hf;
    simpl; [|destruct (is_Exception e); discriminate].
  destruct (persist X (storage_context G)) as [[]|e] eqn:Hs; simpl;
    [|destruct (is_Exception e); discriminate].
  destruct (os_unlink X p) as [[]|e] eqn:Hu; simpl;
    [|destruct (is_Exception e); discriminate].
  intros [= <-]. exists p, docs. by repeat split.
Qed.

Lemma ingestion_returns_only_on_success_witness :
  ∃ p docs,
    ingestion_succeeds Scenario.all_fine Scenario.globals Scenario.pdf p docs ∧
    1 = length docs.
Proof.
  apply (ingestion_returns_only_on_success Scenario.all_fine Scenario.globals
           Scenario.pdf initial 1).
  reflexivity.
Defined.

(** X7.  Once the temporary file has been created, it is on disk after
    [process_pdf] exactly when [process_pdf] raised: a return means it was
    unlinked, and every failure -- of the write, the reader, the indexing,
    the persist or the unlink itself -- leaves it behind. *)
Theorem staged_file_remains_iff_raised (X : Externals) (G : Globals)
    (file : UploadedFile) (w : World) (p : path) :
  NamedTemporaryFile X = Ret p →
  (p ∈ tempfiles (snd (process_pdf X G file w)) ↔
   (∃ e, fst (process_pdf X G file w) = Raise e)).
Proof.
  intros Hp. split.
  - intros Hin. destruct (fst (process_pdf X G file w)) as [n|e] eqn:Hr; [|by exists e].
    by destruct (process_pdf_success_deletes X G file w p n Hp Hr).
  - intros [e He]. exact (process_pdf_failure_leaks X G file w p e Hp He).
Qed.

Lemma staged_file_remains_iff_raised_witness :
  Scenario.tmp ∈
    tempfiles (snd (process_pdf Scenario.upsert_fails Scenario.globals Scenario.pdf initial)).
Proof.
  apply (staged_file_remains_iff_raised Scenario.upsert_fails Scenario.globals
           Scenario.pdf initial Scenario.tmp); [reflexivity|].
  exists Scenario.boom. reflexivity.
Defined.

Lemma appends_process_pdf (X : Externals) (G : Globals) (file : UploadedFile) :
  appends not_ui (process_pdf X G file).
Proof. unfold process_pdf, process_pdf_body. appends_auto. Qed.

Lemma appends_check_vector_store (X : Externals) : appends not_ui (check_vector_store X).
Proof. unfold check_vector_store. appends_auto. Qed.

Lemma appends_load_index (X : Externals) (G : Globals) : appends not_ui (load_index X G).
Proof. unfold load_index. appends_auto. Qed.

Lemma appends_search (X : Externals) (query : str) (index : option VectorStoreIndex) :
  appends not_ui (search_and_answer_with_top_blocks X query index).
Proof.
  unfold search_and_answer_with_top_blocks, search_body. destruct index; appends_auto.
Qed.

Lemma keeps_files_check_vector_store (X : Externals) : keeps_files (check_vector_store X).
Proof. unfold check_vector_store. keeps_files_auto. Qed.

Lemma keeps_files_load_index (X : Externals) (G : Globals) : keeps_files (load_index X G).
Proof. unfold load_index. keeps_files_auto. Qed.

Lemma keeps_files_search (X : Externals) (query : str) (index : option VectorStoreIndex) :
  keeps_files (search_and_answer_with_top_blocks X query index).
Proof.
  unfold search_and_answer_with_top_blocks, search_body. destruct index; keeps_files_auto.
Qed.

Lemma keeps_files_query_branch (X : Externals) (index : option VectorStoreIndex) :
  keeps_files (query_branch X index).
Proof.
  unfold query_branch. destruct (_ && _); keeps_files_auto. apply keeps_files_search.
Qed.

(** X9.  The functions below the page show nothing themselves:
    [process_pdf], [check_vector_store], [load_index] and
    [search_and_answer_with_top_blocks] leave what the user sees as it was,
    whatever the libraries do; and only the ingestion touches the disk:
    the count, the loading of the index and the whole query branch leave the
    temporary files alone. *)
Theorem only_the_page_renders (X : Externals) (G : Globals) (w : World) :
  (∀ file, rendered (snd (process_pdf X G file w)) = rendered w) ∧
  rendered (snd (check_vector_store X w)) = rendered w ∧
  rendered (snd (load_index X G w)) = rendered w ∧
  (∀ query index,
     rendered (snd (search_and_answer_with_top_blocks X query index w)) = rendered w) ∧
  tempfiles (snd (check_vector_store X w)) = tempfiles w ∧
  tempfiles (snd (load_index X G w)) = tempfiles w ∧
  (∀ index, tempfiles (snd (query_branch X index w)) = tempfiles w).
Proof.
  repeat split.
  - intros file. apply appends_not_ui_rendered, appends_process_pdf.
  - apply appends_not_ui_rendered, appends_check_vector_store.
  - apply appends_not_ui_rendered, appends_load_index.
  - intros query index. apply appends_not_ui_rendered, appends_search.
  - apply keeps_files_check_vector_store.
  - apply keeps_files_load_index.
  - intros index. apply keeps_files_query_branch.
Qed.

(** X10.  After a successful ingestion the page shows the success message
    with the number of documents, and that is all the upload branch shows:
    the count that follows cannot add or replace anything, whether it
    succeeds or fails. *)
Theorem upload_success_rendering (X : Externals) (G : Globals) (file : UploadedFile)
    (n : nat) (w : World) :
  uploaded X = Some file →
  fst (process_pdf X G file w) = Ret n →
  rendered (snd (upload_branch X G w))
  = rendered w ++
    [Ui (st_file_uploader (lit "Upload a PDF file"));
     Ui (st_spinner (lit "Processing PDF..."));
     Ui (st_success (lit "PDF processed and saved successfully. Documents processed: "
                     ++ str_of_nat n))].
Proof.
  intros Hup Hok. unfold upload_branch. rewrite Hup.
  unfold bind at 1 2. unfold st at 1 2. unfold log. cbn [fst snd trace tempfiles].
  unfold try_except, bind at 1.
  match goal with |- context [process_pdf X G file ?w0] =>
    rewrite (process_pdf_outcome X G file w w0) in Hok;
    pose proof (appends_not_ui_rendered _ w0 (appends_process_pdf X G file)) as Hp;
    destruct (process_pdf X G file w0) as [o w1] end.
  simpl in Hok, Hp. subst o. unfold bind, st, log. cbn [fst snd trace tempfiles].
  match goal with |- context [check_vector_store X ?w2] =>
    pose proof (appends_not_ui_rendered _ w2 (appends_check_vector_store X)) as Hc;
    pose proof (contained_check_vector_store X w2) as Hn;
    destruct (check_vector_store X w2) as [[[]|e] w3] end;
    simpl in Hc, Hn.
  - simpl. rewrite Hc. unfold rendered in *. simpl. rewrite filter_app, Hp.
    simpl. rewrite !filter_app. simpl. by rewrite <- !app_assoc.
  - rewrite Hn. simpl. rewrite Hc. unfold rendered in *. simpl. rewrite filter_app, Hp.
    simpl. rewrite !filter_app. simpl. by rewrite <- !app_assoc.
Qed.

Lemma upload_success_rendering_witness :
  rendered (snd (upload_branch Scenario.count_fails Scenario.globals initial))
  = rendered initial ++
    [Ui (st_file_uploader (lit "Upload a PDF file"));
     Ui (st_spinner (lit "Processing PDF..."));
     Ui (st_success (lit "PDF processed and saved successfully. Documents processed: "
                     ++ str_of_nat 1))].
Proof.
  apply (upload_success_rendering Scenario.count_fails Scenario.globals Scenario.pdf 1
           initial);
    reflexivity.
Defined.

(** ** Retrieval, in full *)

Lemma collect_blocks_inv (nodes : list NodeWithScore) (acc bs : list str) (w w' : World) :
  collect_blocks nodes acc w = (Ret bs, w') →
  ∃ blocks, bs = acc ++ blocks ∧ map get_content nodes = map Ret blocks.
Proof.
  revert acc; induction nodes as [|n nodes IH]; intros acc; simpl.
  - intros [= <- _]. exists []. by rewrite app_nil_r.
  - unfold bind. destruct (get_content n) as [s|e] eqn:Hn; [|discriminate].
    intros H. destruct (IH _ H) as (blocks & -> & Hb).
    exists (s :: blocks). rewrite <- app_assoc. simpl. by rewrite Hb.
Qed.

(** X11.  Whatever [search_and_answer_with_top_blocks] returns is either
    the pair ("Error: Unable to process the query", []) or the answer and
    blocks of a retrieval in which every step succeeded; in both cases there
    are at most three blocks. *)
Theorem search_returns_sentinel_or_success (X : Externals) (query : str)
    (index : option VectorStoreIndex) (w : World) (answer : str) (blocks : list str) :
  fst (search_and_answer_with_top_blocks X query index w) = Ret (answer, blocks) →
  ((answer, blocks) = (lit "Error: Unable to process the query", []) ∨
   ∃ i resp, index = Some i ∧ retrieval_succeeds X query i resp blocks ∧
             answer = response resp) ∧
  length blocks ≤ 3.
Proof.
  intros H.
  assert ((answer, blocks) = (lit "Error: Unable to process the query", []) ∨
          ∃ i resp, index = Some i ∧ retrieval_succeeds X query i resp blocks ∧
                    answer = response resp) as Hcases.
  { revert H. unfold search_and_answer_with_top_blocks, search_body.
    destruct index as [i|]; unfold_monad; simpl; [|intros [= <- <-]; by left].
    destruct (as_query_engine X _) as [[]|e] eqn:He; simpl;
      [|destruct (is_Exception e); [intros [= <- <-]; by left | discriminate]].
    destruct (query_engine_query X _ query) as [resp|e] eqn:Hq; simpl;
      [|destruct (is_Exception e); [intros [= <- <-]; by left | discriminate]].
    destruct (collect_blocks _ _ _) as [[bs|e] w'] eqn:Hc; simpl;
      [|destruct (is_Exception e); [intros [= <- <-]; by left | discriminate]].
    intros [= <- <-]. right. exists i, resp.
    destruct (collect_blocks_inv _ _ _ _ _ Hc) as (bl & -> & Hb). simpl.
    by repeat split. }
  split; [exact Hcases|].
  destruct Hcases as [[= _ ->] | (i & resp & _ & (_ & _ & Hb) & _)]; [simpl; lia|].
  rewrite <- (length_map Ret blocks), <- Hb, length_map, length_take. lia.
Qed.

Lemma search_returns_sentinel_or_success_witness :
  ((lit "It is about vector search.", [lit " alpha "; lit "beta"; lit "gamma"])
   = (lit "Error: Unable to process the query", []) ∨
   ∃ i resp, Some Scenario.the_index = Some i ∧
             retrieval_succeeds Scenario.all_fine Scenario.question i resp
               [lit " alpha "; lit "beta"; lit "gamma"] ∧
             lit "It is about vector search." = response resp) ∧
  length [lit " alpha "; lit "beta"; lit "gamma"] ≤ 3.
Proof.
  apply (search_returns_sentinel_or_success Scenario.all_fine Scenario.question
           (Some Scenario.the_index) initial).
  reflexivity.
Defined.

(** X12.  [load_index] returns an index exactly when the library built one,
    and then it is the index over the global vector store and embedding
    model; it returns [None] exactly when the library raised an instance of
    [Exception], which is printed and dropped. *)
Theorem load_index_result (X : Externals) (G : Globals) (w : World) :
  (∀ i, fst (load_index X G w) = Ret (Some i) ↔
        from_vector_store X (vector_store G) (embed_model G) = Ret tt ∧
        i = {| index_vector_store := vector_store G;
               index_embed_model := embed_model G |}) ∧
  (fst (load_index X G w) = Ret None ↔
   ∃ e, from_vector_store X (vector_store G) (embed_model G) = Raise e ∧
        is_Exception e = true).
Proof.
  unfold load_index. unfold_monad. simpl.
  destruct (from_vector_store X _ _) as [[]|e]; simpl.
  - split.
    + intros i. split; [by intros [= <-] | by intros [_ ->]].
    + split; [discriminate | intros (e & He & _); discriminate].
  - destruct (is_Exception e) eqn:He; simpl; split.
    + intros i. split; [discriminate | intros [? _]; discriminate].
    + split; [intros _; by exists e | done].
    + intros i. split; [discriminate | intros [? _]; discriminate].
    + split; [discriminate | intros (e' & [= <-] & He'); congruence].
Qed.

(** X13.  The handlers are [except Exception]: what is raised and is not an
    instance of [Exception] goes through them.  Raised by a step of the
    retrieval it leaves [search_and_answer_with_top_blocks] and the query
    branch; raised inside [process_pdf] it leaves the upload branch, and no
    error is shown for it. *)
Theorem non_Exception_passes_handlers (X : Externals) (G : Globals) (w : World) (e : exn) :
  is_Exception e = false →
  (∀ query index,
     retrieval_fails X query index e →
     fst (search_and_answer_with_top_blocks X query index w) = Raise e) ∧
  (∀ i,
     truthy (typed X) = true →
     retrieval_fails X (typed X) (Some i) e →
     fst (query_branch X (Some i) w) = Raise e) ∧
  (∀ file,
     uploaded X = Some file →
     fst (process_pdf X G file w) = Raise e →
     fst (upload_branch X G w) = Raise e ∧
     rendered (snd (upload_branch X G w))
     = rendered w ++ [Ui (st_file_uploader (lit "Upload a PDF file"));
                      Ui (st_spinner (lit "Processing PDF..."))]).
Proof.
  intros He.
  assert (∀ query index w0, retrieval_fails X query index e →
            fst (search_and_answer_with_top_blocks X query index w0) = Raise e) as Hs.
  { intros query index w0 Hfail.
    destruct (search_body_raises X query index e w0 Hfail) as [w' Hw'].
    unfold search_and_answer_with_top_blocks, try_except. by rewrite Hw', He. }
  split; [intros query index; apply Hs | split].
  - intros i Hq Hfail. unfold query_branch. rewrite Hq. simpl.
    unfold bind at 1 2 3. unfold st at 1 2. unfold log.
    match goal with |- context [search_and_answer_with_top_blocks X _ _ ?w0] =>
      specialize (Hs (typed X) (Some i) w0 Hfail);
      destruct (search_and_answer_with_top_blocks X (typed X) (Some i) w0) as [o w1] end.
    simpl in Hs. by subst o.
  - intros file Hup Hfail.
    cut (∃ w2, upload_branch X G w = (Raise e, w2) ∧
               rendered w2 = rendered w ++
                 [Ui (st_file_uploader (lit "Upload a PDF file"));
                  Ui (st_spinner (lit "Processing PDF..."))]).
    { intros (w2 & -> & Hr). done. }
    unfold upload_branch. rewrite Hup.
    unfold bind at 1 2. unfold st at 1 2. unfold log. cbn [fst snd trace tempfiles].
    unfold try_except, bind at 1.
    match goal with |- context [process_pdf X G file ?w0] =>
      rewrite (process_pdf_outcome X G file w w0) in Hfail;
      pose proof (appends_not_ui_rendered _ w0 (appends_process_pdf X G file)) as Hp;
      destruct (process_pdf X G file w0) as [o w1] end.
    simpl in Hfail, Hp. subst o. rewrite He. eexists. split; [reflexivity|].
    rewrite Hp. unfold rendered. simpl. rewrite !filter_app. simpl.
    by rewrite <- !app_assoc.
Qed.

Lemma non_Exception_passes_handlers_witness :
  fst (query_branch StartupScenario.interrupted_query (Some Scenario.the_index) initial)
  = Raise StartupScenario.interrupt.
Proof.
  apply (proj1 (proj2 (non_Exception_passes_handlers StartupScenario.interrupted_query
                         Scenario.globals initial StartupScenario.interrupt eq_refl))
           Scenario.the_index);
    [reflexivity | apply fails_query; reflexivity].
Defined.

(** ** The page, in full *)

Lemma search_trace_begins (X : Externals) (query : str) (i : VectorStoreIndex) (w : World) :
  ∃ t, trace (snd (search_and_answer_with_top_blocks X query (Some i) w))
       = trace w ++ Print (lit "[DEBUG] Received query: " ++ query)
                 :: Call (call_as_query_engine (engine_of i)) :: t.
Proof.
  unfold search_and_answer_with_top_blocks, search_body, engine_of. unfold_monad. simpl.
  destruct (as_query_engine X _) as [[]|e]; simpl.
  - destruct (query_engine_query X _ query) as [resp|e]; simpl.
    + match goal with |- context [collect_blocks ?n ?a ?w0] =>
        pose proof (collect_blocks_world n a w0) as Hw;
        destruct (collect_blocks n a w0) as [[bs|e] w'] end;
        simpl in Hw; subst w'; simpl; [|destruct (is_Exception e); simpl];
        rewrite <- ?app_assoc; simpl; eexists; reflexivity.
    + destruct (is_Exception e); simpl; rewrite <- ?app_assoc; simpl;
        eexists; reflexivity.
  - destruct (is_Exception e); simpl; rewrite <- ?app_assoc; simpl;
      eexists; reflexivity.
Qed.

(** X14.  The page attempts a retrieval exactly when a query was typed and
    an index was loaded.  With an empty query, or without an index, the
    query branch shows the input box and calls no library; otherwise the
    first call it makes builds the query engine, with
    [similarity_top_k=3], over the loaded index. *)
Theorem retrieval_attempted_iff_query_and_index
    (X : Externals) (index : option VectorStoreIndex) (w : World) :
  (typed X = [] ∨ index = None →
   query_branch X index w
   = (Ret tt,
      {| trace := trace w ++
           [Ui (st_text_input (lit "Ask a question about the uploaded documents:"))];
         tempfiles := tempfiles w |})) ∧
  (∀ i, truthy (typed X) = true → index = Some i →
        ∃ t, calls (snd (query_branch X index w))
             = calls w ++
               Call (call_as_query_engine
                       {| engine_index := i; similarity_top_k := 3; verbose := true |})
               :: t).
Proof.
  split.
  - intros [Hq | ->]; unfold query_branch.
    + by rewrite Hq.
    + by rewrite andb_false_r.
  - intros i Hq ->. unfold query_branch. rewrite Hq. simpl.
    unfold bind, st, log. cbn [fst snd trace tempfiles].
    match goal with |- context [search_and_answer_with_top_blocks X _ _ ?w0] =>
      destruct (search_trace_begins X (typed X) i w0) as [t Ht];
      destruct (search_and_answer_with_top_blocks X (typed X) (Some i) w0)
        as [[r|e] w1] end;
      simpl in Ht.
    + rewrite show_result_run. unfold calls. cbn [snd trace]. rewrite Ht.
      rewrite !filter_app. simpl. rewrite <- !app_assoc. simpl. eexists. reflexivity.
    + unfold calls. cbn [snd]. rewrite Ht. rewrite !filter_app. simpl.
      rewrite <- !app_assoc. simpl. eexists. reflexivity.
Qed.

Lemma retrieval_attempted_iff_query_and_index_witness :
  query_branch StartupScenario.idle (Some Scenario.the_index) initial
  = (Ret tt,
     {| trace := trace initial ++
          [Ui (st_text_input (lit "Ask a question about the uploaded documents:"))];
        tempfiles := tempfiles initial |}).
Proof.
  apply (proj1 (retrieval_attempted_iff_query_and_index StartupScenario.idle
                  (Some Scenario.the_index) initial)).
  left. reflexivity.
Defined.

(** X15.  A run of the page with no upload and no query still loads the
    index: that is the one library call it makes.  It stages no file, and
    when it ends normally it has shown the title, the uploader and the
    input box and nothing else. *)
Theorem idle_page_loads_index (X : Externals) (G : Globals) (w : World) :
  uploaded X = None →
  typed X = [] →
  calls (snd (page X G w))
  = calls w ++ [Call (call_from_vector_store (vector_store G) (embed_model G))] ∧
  tempfiles (snd (page X G w)) = tempfiles w ∧
  (fst (page X G w) = Ret tt →
   rendered (snd (page X G w))
   = rendered w ++
     [Ui (st_title (lit "RAG Application with Streamlit, MongoDB, and LlamaIndex"));
      Ui (st_file_uploader (lit "Upload a PDF file"));
      Ui (st_text_input (lit "Ask a question about the uploaded documents:"))]).
Proof.
  intros Hup Hq. unfold page, upload_branch, load_index, query_branch.
  rewrite Hup, Hq. unfold_monad. unfold calls, rendered. simpl.
  destruct (from_vector_store X _ _) as [[]|e]; simpl;
    [|destruct (is_Exception e); simpl];
    rewrite !filter_app; simpl; rewrite <- ?app_assoc; simpl;
    repeat split; try done; discriminate.
Qed.

Lemma idle_page_loads_index_witness :
  calls (snd (page StartupScenario.idle Scenario.globals initial))
  = calls initial ++
    [Call (call_from_vector_store (vector_store Scenario.globals)
             (embed_model Scenario.globals))].
Proof.
  apply (idle_page_loads_index StartupScenario.idle Scenario.globals initial);
    reflexivity.
Defined.

(** ** Blocks and white space *)

Lemma lstrip_spaces (l : str) : forallb isspace l = true → lstrip l = [].
Proof.
  induction l as [|c l IH]; simpl; [done|].
  destruct (isspace c); simpl; [exact IH | discriminate].
Qed.

Lemma lstrip_app_spaces (l s : str) :
  forallb isspace l = true → lstrip (l ++ s) = lstrip s.
Proof.
  induction l as [|c l IH]; simpl; [done|].
  destruct (isspace c); simpl; [exact IH | discriminate].
Qed.

Lemma lstrip_nil_spaces (s : str) : lstrip s = [] → forallb isspace s = true.
Proof.
  induction s as [|c s IH]; simpl; [done|].
  destruct (isspace c); simpl; [exact IH | discriminate].
Qed.

Lemma lstrip_app_text (s r : str) : lstrip s ≠ [] → lstrip (s ++ r) = lstrip s ++ r.
Proof.
  induction s as [|c s IH]; simpl; [done|].
  destruct (isspace c); [exact IH | done].
Qed.

Lemma rstrip_app_spaces (s r : str) :
  forallb isspace r = true → rstrip (s ++ r) = rstrip s.
Proof.
  intros Hr. unfold rstrip. rewrite reverse_app, lstrip_app_spaces; [done|].
  by rewrite forallb_reverse.
Qed.

Lemma strip_app_spaces (l s r : str) :
  forallb isspace l = true → forallb isspace r = true →
  strip (l ++ s ++ r) = strip s.
Proof.
  intros Hl Hr. unfold strip. rewrite (lstrip_app_spaces l _ Hl).
  destruct (lstrip s) as [|c t] eqn:Hs.
  - rewrite lstrip_spaces; [done|].
    rewrite forallb_app, Hr, (lstrip_nil_spaces s Hs). done.
  - rewrite lstrip_app_text; [|by rewrite Hs]. rewrite Hs.
    by apply rstrip_app_spaces.
Qed.

(** X16.  White space around a block does not reach the page: two blocks
    that differ only in the white space at their ends are shown as the same
    markdown, and stripping what was stripped changes nothing. *)
Theorem block_markdown_ignores_outer_space (i : nat) (s : str) :
  (∀ l r, forallb isspace l = true → forallb isspace r = true →
          block_markdown i (l ++ s ++ r) = block_markdown i s) ∧
  block_markdown i (strip s) = block_markdown i s.
Proof.
  assert (strip (strip s) = strip s) as Hidem.
  { destruct (proj1 (strip_spec s)) as (l & r & Hs & Hl & Hr).
    rewrite Hs at 2. by rewrite strip_app_spaces. }
  split.
  - intros l r Hl Hr. unfold block_markdown. by rewrite strip_app_spaces.
  - unfold block_markdown. by rewrite Hidem.
Qed.

Lemma block_markdown_ignores_outer_space_witness :
  block_markdown 1 (lit "  " ++ lit "alpha" ++ nl) = block_markdown 1 (lit "alpha").
Proof.
  apply (proj1 (block_markdown_ignores_outer_space 1 (lit "alpha"))); reflexivity.
Defined.

Lemma load_index_result_witness :
  fst (load_index Scenario.no_index Scenario.globals initial) = Ret None.
Proof.
  apply (proj2 (load_index_result Scenario.no_index Scenario.globals initial)).
  exists Scenario.boom. split; reflexivity.
Defined.
